(** * MediTransport backend: ride lifecycle, visibility filter, payments

    A shallow embedding of the route handlers of the MediTransport
    backend (routes/rides.js, routes/payments.js, routes/auth.js, and the
    handlers they meet in routes/users.js, routes/drivers.js,
    routes/vehicles.js and the middleware) over an explicit model of the
    relational store they query.

    Conventions.
    - A table is a list of rows, in insertion order.  A [SELECT] is a
      [filter], an [UPDATE ... WHERE] maps over every matching row, an
      [INSERT] appends a row whose SERIAL id comes from the table's
      sequence.
    - [NOW()] is the integer [now] handed to the handler.
    - JavaScript numbers are IEEE-754 doubles: [float].  [Math.sin],
      [Math.cos] and [Math.atan2] are implementation-approximated in
      ECMAScript, so they are parameters ([MathLib]); [Math.sqrt] and the
      arithmetic operators are the correctly rounded ones.
    - A thrown [AppError (message, statusCode)] is the [AppError]
      constructor of [result].
    - The store is a working PostgreSQL reached through one connection,
      with the tables [initDatabase] creates.  A statement PostgreSQL
      refuses (a column the table does not have, a value the column does
      not take, a constraint) is an error of the statement: one version
      of the [query] wrapper rethrows it, the other answers the result
      [executeInMemoryQuery] simulates. *)

From Stdlib Require Import ZArith List Ascii String Bool Lia Floats.
From Stdlib Require Import Sorting.Sorted Permutation.
Import ListNotations.

Local Open Scope string_scope.
Local Open Scope Z_scope.

(** ** Results of a handler *)

Inductive result (A : Type) : Type :=
| Ok (a : A)
| AppError (message : string) (statusCode : Z).

Arguments Ok {A} a.
Arguments AppError {A} message statusCode.

Definition is_ok {A : Type} (r : result A) : bool :=
  match r with Ok _ => true | AppError _ _ => false end.

Definition statusCode_of {A : Type} (r : result A) : option Z :=
  match r with Ok _ => None | AppError _ c => Some c end.

(** ** middleware/errorHandler.js *)

(** What the handler reads of a thrown error. *)
Record js_error : Type := {
  err_name : string;
  err_message : string;
  err_statusCode : option Z;
  err_code : option string
}.

Definition code_is (err : js_error) (code : string) : bool :=
  match err_code err with
  | Some c => String.eqb c code
  | None => false
  end.

(** [errorHandler]: the message and the status of the response.  Each
    later test overwrites what an earlier one set. *)
Definition errorHandler (err : js_error) : string * Z :=
  let e0 :=
    (if String.eqb (err_message err) "" then "Internal Server Error"
     else err_message err,
     match err_statusCode err with
     | Some c => if c =? 0 then 500 else c
     | None => 500
     end) in
  let e1 := if String.eqb (err_name err) "ValidationError"
            then ("Validation Error", 400) else e0 in
  let e2 := if String.eqb (err_name err) "UnauthorizedError"
            then ("Unauthorized Access", 401) else e1 in
  let e3 := if code_is err "23505"
            then ("Resource already exists", 409) else e2 in
  let e4 := if code_is err "23503"
            then ("Invalid reference to related resource", 400) else e3 in
  let e5 := if code_is err "23502"
            then ("Required field is missing", 400) else e4 in
  e5.

(** The error PostgreSQL raises on a unique constraint. *)
Definition unique_violation : js_error :=
  {| err_name := "error";
     err_message := "duplicate key value violates unique constraint";
     err_statusCode := None;
     err_code := Some "23505" |}.

(** A thrown error that reaches [errorHandler] through [asyncHandler]. *)
Definition answered {A : Type} (err : js_error) : result A :=
  AppError (fst (errorHandler err)) (snd (errorHandler err)).

(** The errors PostgreSQL raises on a statement it refuses for its
    columns or for a value: an undefined column (42703), a text that is
    not an integer (22P02), an integer outside the column's range
    (22003).  [errorHandler] has no case for their codes.  The messages
    of the last two are their constant part, without the refused
    text. *)
Definition quoted (s : string) : string :=
  String (Ascii.ascii_of_nat 34)
    (String.append s (String (Ascii.ascii_of_nat 34) EmptyString)).

Definition undefined_column (column : string) : js_error :=
  {| err_name := "error";
     err_message :=
       String.append "column " (String.append (quoted column) " does not exist");
     err_statusCode := None;
     err_code := Some "42703" |}.

Definition invalid_integer : js_error :=
  {| err_name := "error";
     err_message := "invalid input syntax for type integer";
     err_statusCode := None;
     err_code := Some "22P02" |}.

Definition integer_out_of_range : js_error :=
  {| err_name := "error";
     err_message := "value is out of range for type integer";
     err_statusCode := None;
     err_code := Some "22003" |}.

(** ** Data model (config/database.js, the tables of [initDatabase]) *)

Inductive role : Type := Patient | Driver | Admin.

Inductive ride_status : Type :=
| Pending | Accepted | InProgress | Completed | Canceled.

Inductive payment_status : Type :=
| PayPending | PayCompleted | PayFailed | PayRefunded.

Definition role_eqb (a b : role) : bool :=
  match a, b with
  | Patient, Patient | Driver, Driver | Admin, Admin => true
  | _, _ => false
  end.

Definition status_eqb (a b : ride_status) : bool :=
  match a, b with
  | Pending, Pending | Accepted, Accepted | InProgress, InProgress
  | Completed, Completed | Canceled, Canceled => true
  | _, _ => false
  end.

Definition status_text (s : ride_status) : string :=
  match s with
  | Pending => "pending"
  | Accepted => "accepted"
  | InProgress => "in-progress"
  | Completed => "completed"
  | Canceled => "canceled"
  end.

(** The values [updateRideSchema] lets through for [status]. *)
Definition status_of_text (s : string) : option ride_status :=
  if String.eqb s "pending" then Some Pending
  else if String.eqb s "accepted" then Some Accepted
  else if String.eqb s "in-progress" then Some InProgress
  else if String.eqb s "completed" then Some Completed
  else if String.eqb s "canceled" then Some Canceled
  else None.

(** Nullable integer column compared with a parameter: [col = $n] is
    never true on NULL. *)
Definition col_eqb (col : option Z) (v : Z) : bool :=
  match col with
  | Some c => Z.eqb c v
  | None => false
  end.

Record user_row : Type := {
  u_id : string;
  u_name : string;
  u_email : string;
  u_password : string;
  u_phone : option string;
  u_role : role;
  u_created_at : Z
}.

Record driver_row : Type := {
  d_id : Z;
  d_user_id : string;
  d_license_number : string;
  d_vehicle_type : string;
  d_availability : bool;
  d_rating : Z;  (* NUMERIC(3,2), in hundredths *)
  d_created_at : Z
}.

Record vehicle_row : Type := {
  v_id : Z;
  v_driver_id : option Z;
  v_license_plate : string;
  v_capacity : Z
}.

Record ride_row : Type := {
  r_id : Z;
  r_user_id : string;
  r_driver_id : option Z;
  r_vehicle_id : option Z;
  r_start_location : string;
  r_end_location : string;
  r_start_latitude : option float;
  r_start_longitude : option float;
  r_end_latitude : option float;
  r_end_longitude : option float;
  r_ride_date : Z;
  r_status : ride_status;
  r_fare : option float;
  r_distance : option float;
  r_duration_minutes : option float;
  r_special_requirements : option string;
  r_emergency_contact : option string;
  r_created_at : Z;
  r_updated_at : Z
}.

Record payment_row : Type := {
  p_id : Z;
  p_ride_id : option Z;
  p_user_id : string;
  p_amount : float;
  p_method : string;
  p_status : payment_status;
  p_stripe_payment_intent_id : string;
  p_payment_date : Z;
  p_created_at : Z;
  p_updated_at : Z
}.

Record tracking_row : Type := {
  t_id : Z;
  t_ride_id : Z;
  t_latitude : float;
  t_longitude : float;
  t_timestamp : Z;
  t_speed : option float;
  t_heading : option float
}.

(** The store: the six tables and the SERIAL sequences of the tables the
    handlers insert into. *)
Record Db : Type := {
  users : list user_row;
  drivers : list driver_row;
  vehicles : list vehicle_row;
  rides : list ride_row;
  payments : list payment_row;
  ride_tracking : list tracking_row;
  drivers_id_seq : Z;
  rides_id_seq : Z;
  ride_tracking_id_seq : Z
}.

Definition with_users (f : list user_row -> list user_row) (db : Db) : Db :=
  {| users := f (users db); drivers := drivers db; vehicles := vehicles db;
     rides := rides db; payments := payments db;
     ride_tracking := ride_tracking db;
     drivers_id_seq := drivers_id_seq db; rides_id_seq := rides_id_seq db;
     ride_tracking_id_seq := ride_tracking_id_seq db |}.

Definition with_drivers (f : list driver_row -> list driver_row) (seq : Z)
  (db : Db) : Db :=
  {| users := users db; drivers := f (drivers db); vehicles := vehicles db;
     rides := rides db; payments := payments db;
     ride_tracking := ride_tracking db;
     drivers_id_seq := seq; rides_id_seq := rides_id_seq db;
     ride_tracking_id_seq := ride_tracking_id_seq db |}.

Definition with_rides (f : list ride_row -> list ride_row) (db : Db) : Db :=
  {| users := users db; drivers := drivers db; vehicles := vehicles db;
     rides := f (rides db); payments := payments db;
     ride_tracking := ride_tracking db;
     drivers_id_seq := drivers_id_seq db; rides_id_seq := rides_id_seq db;
     ride_tracking_id_seq := ride_tracking_id_seq db |}.

Definition with_payments (f : list payment_row -> list payment_row)
  (db : Db) : Db :=
  {| users := users db; drivers := drivers db; vehicles := vehicles db;
     rides := rides db; payments := f (payments db);
     ride_tracking := ride_tracking db;
     drivers_id_seq := drivers_id_seq db; rides_id_seq := rides_id_seq db;
     ride_tracking_id_seq := ride_tracking_id_seq db |}.

(** The columns of [users] and [payments] in the [CREATE TABLE IF NOT
    EXISTS] statements of [initDatabase]; both versions of
    config/database.js create the same tables.  The row types above have
    a field for every column a handler names: [u_password] and
    [p_updated_at] stand for [users.password] and [payments.updated_at],
    which are not among the columns created.  PostgreSQL refuses a
    statement that names a column its table does not have, so no
    statement that runs reads or writes these two fields. *)
Definition users_columns : list string :=
  ["id"; "name"; "email"; "phone"; "role"; "created_at"; "updated_at"].

Definition payments_columns : list string :=
  ["id"; "ride_id"; "user_id"; "amount"; "method"; "status";
   "stripe_payment_intent_id"; "transaction_id"; "payment_date";
   "created_at"].

(** The columns a statement names are all columns of its table. *)
Definition columns_exist (table named : list string) : bool :=
  forallb (fun c => existsb (String.eqb c) table) named.

(** [s.length]: JavaScript counts UTF-16 code units.  A string of the
    model is the UTF-8 text: a continuation byte (10xxxxxx) adds
    nothing to the count, the first byte of a four-byte sequence
    (11110xxx) adds two, any other byte one. *)
Fixpoint js_length (s : string) : nat :=
  match s with
  | EmptyString => 0%nat
  | String c rest =>
      let n := Ascii.nat_of_ascii c in
      ((if Nat.leb 128 n && Nat.ltb n 192 then 0
        else if Nat.leb 240 n then 2 else 1) + js_length rest)%nat
  end.

(** The authenticated caller, [req.user] as [authenticateToken] builds it. *)
Record identity : Type := {
  id : string;
  user_role : role
}.

(** ** Query helpers *)

(** [ORDER BY key DESC]: insertion into a list kept in descending order
    of [key]; rows with equal keys keep their table order. *)
Fixpoint insert_desc {A : Type} (key : A -> Z) (x : A) (l : list A) : list A :=
  match l with
  | [] => [x]
  | y :: l' =>
      if key y <=? key x then x :: y :: l' else y :: insert_desc key x l'
  end.

Definition order_by_desc {A : Type} (key : A -> Z) (l : list A) : list A :=
  fold_right (insert_desc key) [] l.

(** The order of the result: no later row has a larger key. *)
Definition newer_first {A : Type} (key : A -> Z) (a b : A) : Prop :=
  key b <= key a.

(** [LIMIT n OFFSET m] *)
Definition limit_offset {A : Type} (limit offset : nat) (l : list A) : list A :=
  firstn limit (skipn offset l).

(** [SELECT id FROM drivers WHERE user_id = $1] *)
Definition select_driver_by_user (db : Db) (userId : string) : list driver_row :=
  filter (fun d => String.eqb (d_user_id d) userId) (drivers db).

(** [requireRole(allowedRoles)] (middleware/auth.js) *)
Definition requireRole (allowedRoles : list role) (user : identity) : result unit :=
  if existsb (role_eqb (user_role user)) allowedRoles
  then Ok tt
  else AppError "Access denied" 403.

(** ** GET /rides and GET /rides/:id (routes/rides.js) *)

(** The role clause appended to the [WHERE] of both routes.  For a driver
    the clause is appended only when the driver lookup returns a row. *)
Definition role_filter (db : Db) (user : identity) (r : ride_row) : bool :=
  match user_role user with
  | Patient => String.eqb (r_user_id r) (id user)
  | Driver =>
      match select_driver_by_user db (id user) with
      | d :: _ => col_eqb (r_driver_id r) (d_id d)
      | [] => true
      end
  | Admin => true
  end.

(** [if (status)]: the query-string parameter is used when it is a
    non-empty string. *)
Definition status_filter (status : option string) (r : ride_row) : bool :=
  match status with
  | Some s => if String.eqb s "" then true else String.eqb (status_text (r_status r)) s
  | None => true
  end.

(** The rows of [GET /rides] (the columns of [r.*]; the joined columns
    come from LEFT JOINs on primary keys and add no rows). *)
Definition getRides (user : identity) (status : option string)
  (limit offset : nat) (db : Db) : list ride_row :=
  limit_offset limit offset
    (order_by_desc r_created_at
       (filter (fun r => role_filter db user r && status_filter status r)
          (rides db))).

Definition getRideById (user : identity) (rideId : Z) (db : Db)
  : result ride_row :=
  match filter (fun r => (r_id r =? rideId) && role_filter db user r)
          (rides db) with
  | [] => AppError "Ride not found" 404
  | r :: _ => Ok r
  end.

(** ** POST /rides: fare estimate and insertion (routes/rides.js) *)

(** The three [Math] functions the distance helper calls. *)
Record MathLib : Type := {
  Math_sin : float -> float;
  Math_cos : float -> float;
  Math_atan2 : float -> float -> float
}.

(** [Math.PI], the double nearest to pi. *)
Definition Math_PI : float := 0x1.921fb54442d18p+1%float.

(** JavaScript truthiness of an optional number: [undefined], [0], [-0]
    and [NaN] are falsy. *)
Definition truthy (x : option float) : bool :=
  match x with
  | None => false
  | Some f => negb (PrimFloat.eqb f 0%float) && PrimFloat.eqb f f
  end.

Section Fare.
Variable M : MathLib.

(** [calculateDistance(lat1, lon1, lat2, lon2)], with JavaScript's
    left-to-right grouping of [*] and [/]. *)
Definition calculateDistance (lat1 lon1 lat2 lon2 : float) : float :=
  let R := 3959%float in
  let dLat := ((lat2 - lat1) * Math_PI / 180)%float in
  let dLon := ((lon2 - lon1) * Math_PI / 180)%float in
  let a :=
    (Math_sin M (dLat / 2) * Math_sin M (dLat / 2) +
     Math_cos M (lat1 * Math_PI / 180) * Math_cos M (lat2 * Math_PI / 180) *
     Math_sin M (dLon / 2) * Math_sin M (dLon / 2))%float in
  let c := (2 * Math_atan2 M (PrimFloat.sqrt a) (PrimFloat.sqrt (1 - a)))%float in
  (R * c)%float.

(** The fare computed by the handler: the base fare, plus the distance
    charge when the four coordinates are all truthy. *)
Definition estimatedFare
  (startLatitude startLongitude endLatitude endLongitude : option float)
  : float :=
  if truthy startLatitude && truthy startLongitude
     && truthy endLatitude && truthy endLongitude
  then
    match startLatitude, startLongitude, endLatitude, endLongitude with
    | Some lat1, Some lon1, Some lat2, Some lon2 =>
        (15.0 + calculateDistance lat1 lon1 lat2 lon2 * 2.5)%float
    | _, _, _, _ => 15.0%float
    end
  else 15.0%float.

End Fare.

(** The request body of [POST /rides]; an absent key is [None]. *)
Record create_ride_body : Type := {
  startLocation : option string;
  endLocation : option string;
  startLatitude : option float;
  startLongitude : option float;
  endLatitude : option float;
  endLongitude : option float;
  rideDate : option Z;
  specialRequirements : option string;
  emergencyContact : option string;
  vehicleType : option string
}.

Definition in_range (lo hi : float) (x : option float) : bool :=
  match x with
  | None => true
  | Some f => PrimFloat.leb lo f && PrimFloat.leb f hi
  end.

Definition required_string (x : option string) : bool :=
  match x with
  | Some s => negb (String.eqb s "")
  | None => false
  end.

Definition optional_string (x : option string) : bool :=
  match x with
  | Some s => negb (String.eqb s "")
  | None => true
  end.

Definition vehicle_types : list string :=
  ["car"; "van"; "wheelchair-accessible"; "stretcher-enabled"].

(** [createRideSchema.validate(req.body)] *)
Definition createRideSchema (now : Z) (b : create_ride_body) : bool :=
  required_string (startLocation b)
  && required_string (endLocation b)
  && in_range (-90)%float 90%float (startLatitude b)
  && in_range (-180)%float 180%float (startLongitude b)
  && in_range (-90)%float 90%float (endLatitude b)
  && in_range (-180)%float 180%float (endLongitude b)
  && match rideDate b with Some t => now <=? t | None => false end
  && match specialRequirements b with
     | Some s => negb (String.eqb s "") && (Z.of_nat (js_length s) <=? 500)
     | None => true
     end
  && optional_string (emergencyContact b)
  && match vehicleType b with
     | Some s => existsb (String.eqb s) vehicle_types
     | None => true
     end.

(** The advisory candidates: available drivers of the requested type
    whose user row exists, best rated first, five at most. *)
Definition availableDrivers (db : Db) (vehicleType : string) : list driver_row :=
  firstn 5
    (order_by_desc d_rating
       (filter (fun d =>
                  d_availability d
                  && String.eqb (d_vehicle_type d) vehicleType
                  && existsb (fun u => String.eqb (u_id u) (d_user_id d))
                       (users db))
          (drivers db))).

(** The row [INSERT INTO rides ... RETURNING *] stores: the columns the
    statement names, the defaults for the others. *)
Definition new_ride (M : MathLib) (user : identity) (b : create_ride_body)
  (startLoc endLoc : string) (date now : Z) (db : Db) : ride_row :=
  {| r_id := rides_id_seq db;
     r_user_id := id user;
     r_driver_id := None;
     r_vehicle_id := None;
     r_start_location := startLoc;
     r_end_location := endLoc;
     r_start_latitude := startLatitude b;
     r_start_longitude := startLongitude b;
     r_end_latitude := endLatitude b;
     r_end_longitude := endLongitude b;
     r_ride_date := date;
     r_status := Pending;
     r_fare := Some (estimatedFare M (startLatitude b) (startLongitude b)
                       (endLatitude b) (endLongitude b));
     r_distance := None;
     r_duration_minutes := None;
     r_special_requirements := specialRequirements b;
     r_emergency_contact := emergencyContact b;
     r_created_at := now;
     r_updated_at := now |}.

Definition insert_ride (r : ride_row) (db : Db) : Db :=
  {| users := users db; drivers := drivers db; vehicles := vehicles db;
     rides := rides db ++ [r]; payments := payments db;
     ride_tracking := ride_tracking db;
     drivers_id_seq := drivers_id_seq db;
     rides_id_seq := rides_id_seq db + 1;
     ride_tracking_id_seq := ride_tracking_id_seq db |}.

(** [POST /rides]: the created ride with its advisory candidates, and the
    store after the request. *)
Definition postRide (M : MathLib) (user : identity) (b : create_ride_body)
  (now : Z) (db : Db) : result (ride_row * option (list driver_row)) * Db :=
  match requireRole [Patient; Admin] user with
  | AppError m c => (AppError m c, db)
  | Ok _ =>
      if createRideSchema now b then
        match startLocation b, endLocation b, rideDate b with
        | Some startLoc, Some endLoc, Some date =>
            let ride := new_ride M user b startLoc endLoc date now db in
            let db' := insert_ride ride db in
            let candidates :=
              match vehicleType b with
              | Some vt => Some (availableDrivers db' vt)
              | None => None
              end in
            (Ok (ride, candidates), db')
        | _, _, _ => (AppError "ValidationError" 400, db)
        end
      else (AppError "ValidationError" 400, db)
  end.

(** ** PATCH /rides/:id (routes/rides.js) *)

(** The request body of [PATCH /rides/:id]. *)
Record update_ride_body : Type := {
  status : option string;
  fare : option float;
  distance : option float;
  durationMinutes : option float
}.

(** [Joi.number().min(0)]: Joi also refuses a number above
    [Number.MAX_SAFE_INTEGER] as unsafe. *)
Definition min_zero (x : option float) : bool :=
  match x with
  | None => true
  | Some f => PrimFloat.leb 0%float f && PrimFloat.leb f 9007199254740991%float
  end.

(** [updateRideSchema.validate(req.body)]: the status when it is one of
    the five allowed strings. *)
Definition updateRideSchema (b : update_ride_body)
  : option (option ride_status) :=
  if min_zero (fare b) && min_zero (distance b) && min_zero (durationMinutes b)
  then
    match status b with
    | None => Some None
    | Some s =>
        match status_of_text s with
        | Some st => Some (Some st)
        | None => None
        end
    end
  else None.

Definition or_keep {A : Type} (new : option A) (old : option A) : option A :=
  match new with
  | Some v => Some v
  | None => old
  end.

(** [UPDATE rides SET <the fields present>, updated_at = NOW()] on one row. *)
Definition set_fields (st : option ride_status) (b : update_ride_body)
  (now : Z) (r : ride_row) : ride_row :=
  {| r_id := r_id r;
     r_user_id := r_user_id r;
     r_driver_id := r_driver_id r;
     r_vehicle_id := r_vehicle_id r;
     r_start_location := r_start_location r;
     r_end_location := r_end_location r;
     r_start_latitude := r_start_latitude r;
     r_start_longitude := r_start_longitude r;
     r_end_latitude := r_end_latitude r;
     r_end_longitude := r_end_longitude r;
     r_ride_date := r_ride_date r;
     r_status := match st with Some s => s | None => r_status r end;
     r_fare := or_keep (fare b) (r_fare r);
     r_distance := or_keep (distance b) (r_distance r);
     r_duration_minutes := or_keep (durationMinutes b) (r_duration_minutes r);
     r_special_requirements := r_special_requirements r;
     r_emergency_contact := r_emergency_contact r;
     r_created_at := r_created_at r;
     r_updated_at := now |}.

(** [UPDATE rides SET ... WHERE id = rideId] *)
Definition update_where_id (rideId : Z) (f : ride_row -> ride_row)
  (l : list ride_row) : list ride_row :=
  map (fun r => if r_id r =? rideId then f r else r) l.

(** The permission query of [PATCH /rides/:id]: the ride by id, narrowed
    to the driver's own rides when the caller is a driver with a driver
    row. *)
Definition patch_permission (db : Db) (user : identity) (rideId : Z)
  : list ride_row :=
  filter (fun r =>
            (r_id r =? rideId)
            && match user_role user with
               | Driver =>
                   match select_driver_by_user db (id user) with
                   | d :: _ => col_eqb (r_driver_id r) (d_id d)
                   | [] => true
                   end
               | _ => true
               end)
    (rides db).

(** The integer a double is, when it is one. *)
Definition whole_number (f : float) : option Z :=
  match Prim2SF f with
  | S754_zero _ => Some 0
  | S754_finite s m e =>
      let magnitude :=
        if 0 <=? e then Some (Z.pos m * 2 ^ e)
        else if Z.pos m mod 2 ^ (- e) =? 0 then Some (Z.pos m / 2 ^ (- e))
        else None in
      option_map (fun n => if s then - n else n) magnitude
  | _ => None
  end.

(** A parameter bound to [rides.duration_minutes], an INT column:
    node-postgres sends the number as text and PostgreSQL reads it as
    an integer, which takes the whole numbers from -2147483648 to
    2147483647.  [None]: the value is taken. *)
Definition int4_in (x : option float) : option js_error :=
  match x with
  | None => None
  | Some f =>
      match whole_number f with
      | None => Some invalid_integer
      | Some n =>
          if (-2147483648 <=? n) && (n <=? 2147483647) then None
          else Some integer_out_of_range
      end
  end.

(** [PATCH /rides/:id].  The schema lets any number from 0 through for
    [durationMinutes]; when PostgreSQL refuses it for the INT column the
    [UPDATE] writes nothing: the rethrowing [query] wrapper
    ([fallback = false]) hands the error to [errorHandler], the other
    wrapper answers the simulated result without rows, and the handler
    responds 200 with no ride. *)
Definition patchRide (fallback : bool) (user : identity) (rideId : Z)
  (b : update_ride_body) (now : Z) (db : Db)
  : result (option ride_row) * Db :=
  match requireRole [Driver; Admin] user with
  | AppError m c => (AppError m c, db)
  | Ok _ =>
      match updateRideSchema b with
      | None => (AppError "ValidationError" 400, db)
      | Some st =>
          match patch_permission db user rideId with
          | [] => (AppError "Ride not found or no permission" 404, db)
          | _ :: _ =>
              match int4_in (durationMinutes b) with
              | None =>
                  let db' := with_rides (update_where_id rideId (set_fields st b now)) db in
                  (Ok (hd_error (filter (fun r => r_id r =? rideId) (rides db'))), db')
              | Some err =>
                  if fallback then (Ok None, db) else (answered err, db)
              end
          end
      end
  end.

(** ** POST /rides/:id/assign (routes/rides.js) *)

(** [SELECT * FROM rides WHERE id = $1 AND status = 'pending'] *)
Definition select_pending_ride (db : Db) (rideId : Z) : list ride_row :=
  filter (fun r => (r_id r =? rideId) && status_eqb (r_status r) Pending)
    (rides db).

(** [drivers d LEFT JOIN vehicles v ON d.id = v.driver_id], projected on
    the driver and [v.id as vehicle_id]. *)
Definition left_join_vehicles (db : Db) (d : driver_row)
  : list (driver_row * option Z) :=
  match filter (fun v => col_eqb (v_driver_id v) (d_id d)) (vehicles db) with
  | [] => [(d, None)]
  | vs => map (fun v => (d, Some (v_id v))) vs
  end.

(** [... WHERE d.id = $1 AND d.availability = true] *)
Definition select_available_driver (db : Db) (driverId : Z)
  : list (driver_row * option Z) :=
  flat_map (left_join_vehicles db)
    (filter (fun d => (d_id d =? driverId) && d_availability d) (drivers db)).

Definition set_assignment (driverId : Z) (vehicleId : option Z) (now : Z)
  (r : ride_row) : ride_row :=
  {| r_id := r_id r;
     r_user_id := r_user_id r;
     r_driver_id := Some driverId;
     r_vehicle_id := vehicleId;
     r_start_location := r_start_location r;
     r_end_location := r_end_location r;
     r_start_latitude := r_start_latitude r;
     r_start_longitude := r_start_longitude r;
     r_end_latitude := r_end_latitude r;
     r_end_longitude := r_end_longitude r;
     r_ride_date := r_ride_date r;
     r_status := Accepted;
     r_fare := r_fare r;
     r_distance := r_distance r;
     r_duration_minutes := r_duration_minutes r;
     r_special_requirements := r_special_requirements r;
     r_emergency_contact := r_emergency_contact r;
     r_created_at := r_created_at r;
     r_updated_at := now |}.

(** [UPDATE rides SET driver_id = $1, vehicle_id = $2, status = 'accepted',
    updated_at = NOW() WHERE id = $3 RETURNING *]: the store after the
    statement and the rows it returns. *)
Definition update_assignment (driverId : Z) (vehicleId : option Z)
  (rideId now : Z) (db : Db) : Db * list ride_row :=
  let db' := with_rides (update_where_id rideId
                           (set_assignment driverId vehicleId now)) db in
  (db', filter (fun r => r_id r =? rideId) (rides db')).

(** The vehicle registered for a driver, [None] when there is none. *)
Definition current_vehicle (db : Db) (driverId : Z) : option Z :=
  option_map v_id
    (hd_error (filter (fun v => col_eqb (v_driver_id v) driverId) (vehicles db))).

(** [if (!driverId)]: a missing or zero driver id is falsy. *)
Definition falsy_id (driverId : option Z) : bool :=
  match driverId with
  | None => true
  | Some n => n =? 0
  end.

Definition assignDriver (user : identity) (rideId : Z) (driverId : option Z)
  (now : Z) (db : Db) : result (option ride_row) * Db :=
  match requireRole [Admin] user with
  | AppError m c => (AppError m c, db)
  | Ok _ =>
      match driverId with
      | None => (AppError "Driver ID is required" 400, db)
      | Some dId =>
          if falsy_id driverId then (AppError "Driver ID is required" 400, db)
          else
            match select_pending_ride db rideId with
            | [] => (AppError "Ride not found or not available for assignment" 404, db)
            | _ :: _ =>
                match select_available_driver db dId with
                | [] => (AppError "Driver not found or not available" 404, db)
                | (_, vehicle_id) :: _ =>
                    let (db', rows) := update_assignment dId vehicle_id rideId now db in
                    (Ok (hd_error rows), db')
                end
            end
      end
  end.

(** *** The assign handler between its awaits

    Node runs a handler without interruption up to its next [await]; at
    each [await query(...)] another request may run.  [assign_step] is one
    such uninterrupted stretch: it consumes the answer of one statement. *)

Inductive assign_pc : Type :=
| AtStart
| AfterRideCheck
| AfterDriverCheck (vehicle_id : option Z)
| Responded (r : result (option ride_row)).

Record assign_request : Type := {
  q_caller : identity;
  q_rideId : Z;
  q_driverId : Z;
  q_now : Z
}.

Definition assign_step (q : assign_request) (pc : assign_pc) (db : Db)
  : assign_pc * Db :=
  match pc with
  | AtStart =>
      match requireRole [Admin] (q_caller q) with
      | AppError m c => (Responded (AppError m c), db)
      | Ok _ =>
          if falsy_id (Some (q_driverId q))
          then (Responded (AppError "Driver ID is required" 400), db)
          else
            match select_pending_ride db (q_rideId q) with
            | [] => (Responded (AppError "Ride not found or not available for assignment" 404), db)
            | _ :: _ => (AfterRideCheck, db)
            end
      end
  | AfterRideCheck =>
      match select_available_driver db (q_driverId q) with
      | [] => (Responded (AppError "Driver not found or not available" 404), db)
      | (_, vehicle_id) :: _ => (AfterDriverCheck vehicle_id, db)
      end
  | AfterDriverCheck vehicle_id =>
      let (db', rows) :=
        update_assignment (q_driverId q) vehicle_id (q_rideId q) (q_now q) db in
      (Responded (Ok (hd_error rows)), db')
  | Responded r => (Responded r, db)
  end.

(** Two requests in flight; the schedule says whose stretch runs next
    ([true]: the first request). *)
Fixpoint run_two (q1 q2 : assign_request) (schedule : list bool)
  (pc1 pc2 : assign_pc) (db : Db) : assign_pc * assign_pc * Db :=
  match schedule with
  | [] => (pc1, pc2, db)
  | true :: rest =>
      let (pc1', db') := assign_step q1 pc1 db in
      run_two q1 q2 rest pc1' pc2 db'
  | false :: rest =>
      let (pc2', db') := assign_step q2 pc2 db in
      run_two q1 q2 rest pc1 pc2' db'
  end.

(** ** GET and POST /rides/:id/tracking (routes/rides.js) *)

(** The permission query: the ride by id, owned by the caller or, for a
    driver with a driver row, assigned to that driver. *)
Definition tracking_permission (db : Db) (user : identity) (rideId : Z)
  : list ride_row :=
  filter (fun r =>
            (r_id r =? rideId)
            && (String.eqb (r_user_id r) (id user)
                || match user_role user with
                   | Driver =>
                       match select_driver_by_user db (id user) with
                       | d :: _ => col_eqb (r_driver_id r) (d_id d)
                       | [] => false
                       end
                   | _ => false
                   end))
    (rides db).

(** [SELECT * FROM ride_tracking WHERE ride_id = $1
    ORDER BY timestamp DESC LIMIT 50] *)
Definition select_tracking (db : Db) (rideId : Z) : list tracking_row :=
  firstn 50
    (order_by_desc t_timestamp
       (filter (fun t => t_ride_id t =? rideId) (ride_tracking db))).

Definition getTracking (user : identity) (rideId : Z) (db : Db)
  : result (list tracking_row) :=
  match tracking_permission db user rideId, role_eqb (user_role user) Admin with
  | [], false => AppError "No permission to view this ride tracking" 403
  | _, _ => Ok (select_tracking db rideId)
  end.

Definition insert_tracking (t : tracking_row) (db : Db) : Db :=
  {| users := users db; drivers := drivers db; vehicles := vehicles db;
     rides := rides db; payments := payments db;
     ride_tracking := ride_tracking db ++ [t];
     drivers_id_seq := drivers_id_seq db;
     rides_id_seq := rides_id_seq db;
     ride_tracking_id_seq := ride_tracking_id_seq db + 1 |}.

Definition postTracking (user : identity) (rideId : Z)
  (latitude longitude speed heading : option float) (now : Z) (db : Db)
  : result unit * Db :=
  match requireRole [Driver] user with
  | AppError m c => (AppError m c, db)
  | Ok _ =>
      match latitude, longitude with
      | Some lat, Some lon =>
          if truthy latitude && truthy longitude then
            match select_driver_by_user db (id user) with
            | [] => (AppError "Driver record not found" 404, db)
            | d :: _ =>
                match filter (fun r => (r_id r =? rideId)
                                       && col_eqb (r_driver_id r) (d_id d))
                        (rides db) with
                | [] => (AppError "Ride not found or not assigned to you" 404, db)
                | _ :: _ =>
                    (Ok tt,
                     insert_tracking
                       {| t_id := ride_tracking_id_seq db;
                          t_ride_id := rideId;
                          t_latitude := lat;
                          t_longitude := lon;
                          t_timestamp := now;
                          t_speed := speed;
                          t_heading := heading |} db)
                end
            end
          else (AppError "Latitude and longitude are required" 400, db)
      | _, _ => (AppError "Latitude and longitude are required" 400, db)
      end
  end.

(** ** Payments (routes/payments.js) *)

(** What the handlers read of a Stripe payment intent. *)
Record payment_intent : Type := {
  intent_status : string;
  metadata_userId : string
}.

(** What the webhook reads of a verified Stripe event: [event.type] and
    [event.data.object.id]. *)
Record stripe_event : Type := {
  event_type : string;
  object_id : string
}.

Definition set_payment (st : payment_status) (payment_date updated_at : option Z)
  (p : payment_row) : payment_row :=
  {| p_id := p_id p;
     p_ride_id := p_ride_id p;
     p_user_id := p_user_id p;
     p_amount := p_amount p;
     p_method := p_method p;
     p_status := st;
     p_stripe_payment_intent_id := p_stripe_payment_intent_id p;
     p_payment_date := match payment_date with Some t => t | None => p_payment_date p end;
     p_created_at := p_created_at p;
     p_updated_at := match updated_at with Some t => t | None => p_updated_at p end |}.

Definition update_payments_where (cond : payment_row -> bool)
  (f : payment_row -> payment_row) (l : list payment_row) : list payment_row :=
  map (fun p => if cond p then f p else p) l.

Definition set_ride_status (st : ride_status) (now : Z) (r : ride_row) : ride_row :=
  set_fields (Some st)
    {| status := None; fare := None; distance := None; durationMinutes := None |}
    now r.

(** [UPDATE rides SET status = 'completed', updated_at = NOW()
    WHERE id = payment.ride_id] *)
Definition complete_ride (ride_id : option Z) (now : Z) (db : Db) : Db :=
  with_rides (map (fun r => if col_eqb ride_id (r_id r)
                            then set_ride_status Completed now r else r)) db.

(** The columns the [UPDATE payments] of the confirmation names. *)
Definition confirm_update_columns : list string :=
  ["status"; "payment_date"; "updated_at"; "stripe_payment_intent_id";
   "user_id"].

(** [POST /payments/confirm/:paymentIntentId].  [retrieve] is
    [stripe.paymentIntents.retrieve] ([None] when it throws).  Every
    error raised inside the [try] leaves as the 500 of its [catch].
    That holds for an [UPDATE] PostgreSQL refuses under both [query]
    wrappers: one rethrows the error inside the [try]; the other
    answers the simulated result without rows, on which the handler
    throws its 404, inside the [try] as well. *)
Definition confirmPayment (retrieve : string -> option payment_intent)
  (user : identity) (paymentIntentId : string) (now : Z) (db : Db)
  : result (payment_row * string) * Db :=
  match retrieve paymentIntentId with
  | None => (AppError "Failed to confirm payment" 500, db)
  | Some paymentIntent =>
      if negb (String.eqb (metadata_userId paymentIntent) (id user))
      then (AppError "Failed to confirm payment" 500, db)
      else if negb (columns_exist payments_columns confirm_update_columns)
      then (AppError "Failed to confirm payment" 500, db)
      else
        let succeeded := String.eqb (intent_status paymentIntent) "succeeded" in
        let cond p :=
          String.eqb (p_stripe_payment_intent_id p) paymentIntentId
          && String.eqb (p_user_id p) (id user) in
        let db1 :=
          with_payments
            (update_payments_where cond
               (set_payment (if succeeded then PayCompleted else PayFailed)
                  (Some now) (Some now))) db in
        match filter cond (payments db1) with
        | [] => (AppError "Failed to confirm payment" 500, db1)
        | payment :: _ =>
            let db2 :=
              if succeeded then complete_ride (p_ride_id payment) now db1
              else db1 in
            (Ok (payment, intent_status paymentIntent), db2)
        end
  end.

(** [POST /payments/webhook].  [event] is what
    [stripe.webhooks.constructEvent] returns ([None] when the signature
    check throws). *)
Definition webhook (event : option stripe_event) (now : Z) (db : Db)
  : result unit * Db :=
  match event with
  | None => (AppError "Webhook Error" 400, db)
  | Some e =>
      let cond p := String.eqb (p_stripe_payment_intent_id p) (object_id e) in
      if String.eqb (event_type e) "payment_intent.succeeded" then
        (Ok tt,
         with_payments
           (update_payments_where cond (set_payment PayCompleted (Some now) None))
           db)
      else if String.eqb (event_type e) "payment_intent.payment_failed" then
        (Ok tt,
         with_payments
           (update_payments_where cond (set_payment PayFailed None None)) db)
      else (Ok tt, db)
  end.

(** ** DELETE /vehicles/:id (routes/vehicles.js) *)

Definition clear_vehicle (vehicleId : Z) (r : ride_row) : ride_row :=
  if col_eqb (r_vehicle_id r) vehicleId then
    {| r_id := r_id r;
       r_user_id := r_user_id r;
       r_driver_id := r_driver_id r;
       r_vehicle_id := None;
       r_start_location := r_start_location r;
       r_end_location := r_end_location r;
       r_start_latitude := r_start_latitude r;
       r_start_longitude := r_start_longitude r;
       r_end_latitude := r_end_latitude r;
       r_end_longitude := r_end_longitude r;
       r_ride_date := r_ride_date r;
       r_status := r_status r;
       r_fare := r_fare r;
       r_distance := r_distance r;
       r_duration_minutes := r_duration_minutes r;
       r_special_requirements := r_special_requirements r;
       r_emergency_contact := r_emergency_contact r;
       r_created_at := r_created_at r;
       r_updated_at := r_updated_at r |}
  else r.

(** [DELETE FROM vehicles WHERE id = $1], with the [ON DELETE SET NULL]
    of [rides.vehicle_id]. *)
Definition deleteVehicle (user : identity) (vehicleId : Z) (db : Db)
  : result unit * Db :=
  match requireRole [Admin] user with
  | AppError m c => (AppError m c, db)
  | Ok _ =>
      match filter (fun v => v_id v =? vehicleId) (vehicles db) with
      | [] => (AppError "Vehicle not found" 404, db)
      | _ :: _ =>
          (Ok tt,
           {| users := users db; drivers := drivers db;
              vehicles := filter (fun v => negb (v_id v =? vehicleId)) (vehicles db);
              rides := map (clear_vehicle vehicleId) (rides db);
              payments := payments db;
              ride_tracking := ride_tracking db;
              drivers_id_seq := drivers_id_seq db;
              rides_id_seq := rides_id_seq db;
              ride_tracking_id_seq := ride_tracking_id_seq db |})
      end
  end.

(** ** The connection and the [query] wrapper (config/database.js) *)

(** The transaction state of the connection: none open, one open with
    the tables as they were at [BEGIN], or one open and aborted by a
    failed statement. *)
Inductive txn : Type :=
| NoTxn
| InTxn (saved : Db)
| Aborted (saved : Db).

Record session : Type := {
  store : Db;
  txn_state : txn
}.

(** Undoing a transaction restores the tables; sequences are not
    transactional and keep their value. *)
Definition restore (saved current : Db) : Db :=
  {| users := users saved; drivers := drivers saved;
     vehicles := vehicles saved; rides := rides saved;
     payments := payments saved; ride_tracking := ride_tracking saved;
     drivers_id_seq := drivers_id_seq current;
     rides_id_seq := rides_id_seq current;
     ride_tracking_id_seq := ride_tracking_id_seq current |}.

Definition pg_begin (s : session) : session :=
  match txn_state s with
  | NoTxn => {| store := store s; txn_state := InTxn (store s) |}
  | _ => s
  end.

(** [COMMIT] of an aborted transaction rolls it back. *)
Definition pg_commit (s : session) : session :=
  match txn_state s with
  | NoTxn => s
  | InTxn _ => {| store := store s; txn_state := NoTxn |}
  | Aborted saved => {| store := restore saved (store s); txn_state := NoTxn |}
  end.

Definition pg_rollback (s : session) : session :=
  match txn_state s with
  | NoTxn => s
  | InTxn saved | Aborted saved =>
      {| store := restore saved (store s); txn_state := NoTxn |}
  end.

(** PostgreSQL runs a statement: [run] gives its answer ([None] for an
    error) and the store after it.  In an aborted transaction every
    statement is refused; an error inside a transaction aborts it. *)
Definition pg_exec {A : Type} (run : Db -> option A * Db) (s : session)
  : option A * session :=
  match txn_state s with
  | Aborted _ => (None, s)
  | NoTxn =>
      let (a, db') := run (store s) in
      (a, {| store := db'; txn_state := NoTxn |})
  | InTxn saved =>
      let (a, db') := run (store s) in
      (a, {| store := db';
             txn_state := match a with
                          | Some _ => InTxn saved
                          | None => Aborted saved
                          end |})
  end.

(** [query(text, params)].  The repository has two versions of the
    wrapper: one rethrows a database error, the other answers it with
    [executeInMemoryQuery]'s simulated result ([simulated]) instead.
    [None] is a thrown error. *)
Definition query {A : Type} (fallback : bool) (simulated : A)
  (run : Db -> option A * Db) (s : session) : option A * session :=
  let (a, s') := pg_exec run s in
  match a with
  | Some x => (Some x, s')
  | None => if fallback then (Some simulated, s') else (None, s')
  end.

(** ** POST /auth/register (routes/auth.js) *)

Record Env : Type := {
  JWT_SECRET : option string;
  JWT_REFRESH_SECRET : option string;
  in_memory_fallback : bool
}.

(** The library calls of the handler: [jwt.sign] on the payload
    (userId, email, role) with a secret, Joi's [email()] rule and the
    phone pattern. *)
Record Libs : Type := {
  jwt_sign : string -> string -> role -> string -> string;
  Joi_email : string -> bool;
  phone_pattern : string -> bool
}.

Record register_body : Type := {
  reg_name : option string;
  reg_email : option string;
  reg_password : option string;
  reg_phone : option string;
  reg_role : option string;
  reg_licenseNumber : option string;
  reg_vehicleType : option string
}.

(** The validated value: the driver fields are there exactly when the
    role is driver. *)
Record register_value : Type := {
  name : string;
  email : string;
  password : string;
  phone : option string;
  new_role : role;
  licenseNumber : option string;
  new_vehicleType : option string
}.

Definition role_of_text (s : option string) : option role :=
  match s with
  | None => Some Patient
  | Some t =>
      if String.eqb t "patient" then Some Patient
      else if String.eqb t "driver" then Some Driver
      else if String.eqb t "admin" then Some Admin
      else None
  end.

(** [registerSchema.validate(req.body)] *)
Definition registerSchema (L : Libs) (b : register_body) : option register_value :=
  match reg_name b, reg_email b, reg_password b, role_of_text (reg_role b) with
  | Some n, Some e, Some pw, Some ro =>
      let base :=
        (2 <=? Z.of_nat (js_length n)) && (Z.of_nat (js_length n) <=? 100)
        && Joi_email L e
        && (8 <=? Z.of_nat (js_length pw))
        && match reg_phone b with Some ph => phone_pattern L ph | None => true end in
      let drv :=
        match ro with
        | Driver =>
            required_string (reg_licenseNumber b)
            && match reg_vehicleType b with
               | Some vt => existsb (String.eqb vt) vehicle_types
               | None => false
               end
        | _ =>
            match reg_licenseNumber b, reg_vehicleType b with
            | None, None => true
            | _, _ => false
            end
        end in
      if base && drv then
        Some {| name := n; email := e; password := pw; phone := reg_phone b;
                new_role := ro; licenseNumber := reg_licenseNumber b;
                new_vehicleType := reg_vehicleType b |}
      else None
  | _, _, _, _ => None
  end.

(** [jwt.sign] throws when its secret is missing or empty. *)
Definition sign_with (L : Libs) (u : user_row) (secret : option string)
  : option string :=
  match secret with
  | Some k =>
      if String.eqb k "" then None
      else Some (jwt_sign L (u_id u) (u_email u) (u_role u) k)
  | None => None
  end.

(** [generateTokens(user)]; [None] is a thrown error, also the
    [TypeError] of reading [user.id] on [undefined]. *)
Definition generateTokens (E : Env) (L : Libs) (user : option user_row)
  : option (string * string) :=
  match user with
  | None => None
  | Some u =>
      match sign_with L u (JWT_SECRET E) with
      | None => None
      | Some accessToken =>
          match sign_with L u (JWT_REFRESH_SECRET E) with
          | None => None
          | Some refreshToken => Some (accessToken, refreshToken)
          end
      end
  end.

Arguments generateTokens : simpl never.

(** [SELECT id FROM users WHERE email = $1] *)
Definition select_user_by_email (e : string) (db : Db)
  : option (list user_row) * Db :=
  (Some (filter (fun u => String.eqb (u_email u) e) (users db)), db).

(** [SELECT ... FROM users WHERE id = $1] *)
Definition select_user_by_id (i : string) (db : Db)
  : option (list user_row) * Db :=
  (Some (filter (fun u => String.eqb (u_id u) i) (users db)), db).

Definition same_phone (a b : option string) : bool :=
  match a, b with
  | Some x, Some y => String.eqb x y
  | _, _ => false
  end.

(** The columns the [INSERT INTO users] of the registration names. *)
Definition insert_user_columns : list string :=
  ["id"; "name"; "email"; "password"; "phone"; "role"; "created_at"].

(** [INSERT INTO users (id, name, email, password, phone, role,
    created_at) ...]: refused when the table lacks one of the named
    columns, and on a duplicate id, email or phone. *)
Definition insert_user (u : user_row) (db : Db) : option unit * Db :=
  if negb (columns_exist users_columns insert_user_columns)
  then (None, db)
  else if existsb (fun x => String.eqb (u_id x) (u_id u)
                            || String.eqb (u_email x) (u_email u)
                            || same_phone (u_phone x) (u_phone u)) (users db)
  then (None, db)
  else (Some tt, with_users (fun l => (l ++ [u])%list) db).

(** [INSERT INTO drivers ...]: the id is drawn from the sequence, then
    the row is refused on a duplicate user or licence number, or when
    the user row is not there. *)
Definition insert_driver (userId lic vtype : string) (now : Z) (db : Db)
  : option unit * Db :=
  let row :=
    {| d_id := drivers_id_seq db; d_user_id := userId;
       d_license_number := lic; d_vehicle_type := vtype;
       d_availability := true; d_rating := 500; d_created_at := now |} in
  if existsb (fun d => String.eqb (d_user_id d) userId
                       || String.eqb (d_license_number d) lic) (drivers db)
     || negb (existsb (fun u => String.eqb (u_id u) userId) (users db))
  then (None, with_drivers (fun l => l) (drivers_id_seq db + 1) db)
  else (Some tt, with_drivers (fun l => (l ++ [row])%list) (drivers_id_seq db + 1) db).

(** The body of the handler's [try]: [None] is a thrown error. *)
Definition register_try (E : Env) (L : Libs) (v : register_value)
  (userId hashedPassword : string) (now : Z) (s0 : session)
  : option (user_row * (string * string)) * session :=
  let fb := in_memory_fallback E in
  let s1 := pg_begin s0 in
  let row :=
    {| u_id := userId; u_name := name v; u_email := email v;
       u_password := hashedPassword; u_phone := phone v;
       u_role := new_role v; u_created_at := now |} in
  let (r1, s2) := query fb tt (insert_user row) s1 in
  match r1 with
  | None => (None, s2)
  | Some _ =>
      let (r2, s3) :=
        match new_role v, licenseNumber v, new_vehicleType v with
        | Driver, Some lic, Some vt =>
            query fb tt (insert_driver userId lic vt now) s2
        | Driver, _, _ =>
            query fb tt (fun db => (None, db)) s2
        | _, _, _ => (Some tt, s2)
        end in
      match r2 with
      | None => (None, s3)
      | Some _ =>
          let s4 := pg_commit s3 in
          let (r3, s5) := query fb [] (select_user_by_id userId) s4 in
          match r3 with
          | None => (None, s5)
          | Some rows =>
              match hd_error rows, generateTokens E L (hd_error rows) with
              | Some user, Some tokens => (Some (user, tokens), s5)
              | _, _ => (None, s5)
              end
          end
      end
  end.

(** [POST /auth/register]: [userId] is the fresh [uuidv4()],
    [hashedPassword] the result of [bcrypt.hash]. *)
Definition register (E : Env) (L : Libs) (b : register_body)
  (userId hashedPassword : string) (now : Z) (db : Db)
  : result (user_row * (string * string)) * Db :=
  match registerSchema L b with
  | None => (AppError "ValidationError" 400, db)
  | Some v =>
      let s := {| store := db; txn_state := NoTxn |} in
      let (existingUser, s0) :=
        query (in_memory_fallback E) [] (select_user_by_email (email v)) s in
      match existingUser with
      | None => (AppError "Internal Server Error" 500, store s0)
      | Some (_ :: _) =>
          (AppError "User with this email already exists" 409, store s0)
      | Some [] =>
          match register_try E L v userId hashedPassword now s0 with
          | (Some created, s') => (Ok created, store s')
          | (None, s') =>
              (AppError "Registration failed" 500, store (pg_rollback s'))
          end
      end
  end.

(** ** The ride invariant and the reachable stores *)

Definition assigned (r : ride_row) : bool :=
  match r_driver_id r, r_vehicle_id r with
  | None, None => false
  | _, _ => true
  end.

(** A ride with a driver or a vehicle is not pending. *)
Definition ride_ok (r : ride_row) : bool :=
  negb (assigned r && status_eqb (r_status r) Pending).

Definition invariant (db : Db) : Prop :=
  Forall (fun r => ride_ok r = true) (rides db).

(** One request served.  [permitted] restricts the bodies of
    [PATCH /rides/:id]; [step_elsewhere] stands for the routes that do not
    write the rides table (registration, availability, vehicle creation
    and update, payment intents). *)
Inductive step (M : MathLib) (permitted : update_ride_body -> Prop)
  : Db -> Db -> Prop :=
| step_create user b now db :
    step M permitted db (snd (postRide M user b now db))
| step_patch fallback user rideId b now db :
    permitted b ->
    step M permitted db (snd (patchRide fallback user rideId b now db))
| step_assign user rideId driverId now db :
    step M permitted db (snd (assignDriver user rideId driverId now db))
| step_confirm retrieve user paymentIntentId now db :
    step M permitted db
      (snd (confirmPayment retrieve user paymentIntentId now db))
| step_webhook event now db :
    step M permitted db (snd (webhook event now db))
| step_tracking user rideId lat lon speed heading now db :
    step M permitted db
      (snd (postTracking user rideId lat lon speed heading now db))
| step_delete_vehicle user vehicleId db :
    step M permitted db (snd (deleteVehicle user vehicleId db))
| step_elsewhere db db' :
    rides db' = rides db ->
    step M permitted db db'.

(** The stores reached from one without rides. *)
Inductive reachable (M : MathLib) (permitted : update_ride_body -> Prop)
  : Db -> Prop :=
| reach_init db : rides db = [] -> reachable M permitted db
| reach_step db db' :
    reachable M permitted db -> step M permitted db db' ->
    reachable M permitted db'.

Definition any_body (b : update_ride_body) : Prop := True.

Definition not_to_pending (b : update_ride_body) : Prop :=
  status b <> Some "pending".

(** ** Sample data *)

(** A [Math] whose functions are their small-angle approximations. *)
Definition approx_math : MathLib :=
  {| Math_sin := fun x => x;
     Math_cos := fun x => (1 - x * x / 2)%float;
     Math_atan2 := fun y x => (y / x)%float |}.

Definition sample_ride (rid : Z) (owner : string) (driver vehicle : option Z)
  (st : ride_status) (created : Z) : ride_row :=
  {| r_id := rid; r_user_id := owner;
     r_driver_id := driver; r_vehicle_id := vehicle;
     r_start_location := "Clinic"; r_end_location := "Home";
     r_start_latitude := None; r_start_longitude := None;
     r_end_latitude := None; r_end_longitude := None;
     r_ride_date := 1000; r_status := st;
     r_fare := Some 15.0%float; r_distance := None;
     r_duration_minutes := None;
     r_special_requirements := None; r_emergency_contact := None;
     r_created_at := created; r_updated_at := created |}.

Definition sample_driver (did : Z) (owner : string) (available : bool)
  : driver_row :=
  {| d_id := did; d_user_id := owner;
     d_license_number := String.append "LIC-" owner;
     d_vehicle_type := "van"; d_availability := available;
     d_rating := 500; d_created_at := 0 |}.

Definition sample_user (uid : string) (mail : string) (r : role) : user_row :=
  {| u_id := uid; u_name := uid; u_email := mail; u_password := "hash";
     u_phone := None; u_role := r; u_created_at := 0 |}.

Definition sample_payment (pid : Z) (ride : Z) (payer intent : string)
  : payment_row :=
  {| p_id := pid; p_ride_id := Some ride; p_user_id := payer;
     p_amount := 15.0%float; p_method := "credit_card";
     p_status := PayPending; p_stripe_payment_intent_id := intent;
     p_payment_date := 0; p_created_at := 0; p_updated_at := 0 |}.

Definition admin : identity := {| id := "u-admin"; user_role := Admin |}.
Definition patient1 : identity := {| id := "u-patient1"; user_role := Patient |}.
Definition driver1 : identity := {| id := "u-driver1"; user_role := Driver |}.
(** A driver identity whose driver row was never created. *)
Definition driver2 : identity := {| id := "u-driver2"; user_role := Driver |}.

(** Two patients, driver 1 with a driver row and a vehicle, driver 3 with
    a driver row and no vehicle, driver 2 without a driver row; ride 1 is
    accepted by driver 1, ride 2 is pending. *)
Definition sample_db : Db :=
  {| users := [ sample_user "u-admin" "admin@x.org" Admin;
                sample_user "u-patient1" "p1@x.org" Patient;
                sample_user "u-driver1" "d1@x.org" Driver;
                sample_user "u-driver2" "d2@x.org" Driver;
                sample_user "u-driver3" "d3@x.org" Driver ];
     drivers := [ sample_driver 1 "u-driver1" true;
                  sample_driver 3 "u-driver3" true ];
     vehicles := [ {| v_id := 7; v_driver_id := Some 1;
                      v_license_plate := "MT-7"; v_capacity := 4 |} ];
     rides := [ sample_ride 1 "u-patient1" (Some 1) (Some 7) Accepted 10;
                sample_ride 2 "u-patient1" None None Pending 20 ];
     payments := [ sample_payment 1 1 "u-patient1" "pi_1" ];
     ride_tracking := [];
     drivers_id_seq := 4; rides_id_seq := 3; ride_tracking_id_seq := 1 |}.

(** Two admin requests for the pending ride 2: driver 1, then driver 3. *)
Definition assign_first : assign_request :=
  {| q_caller := admin; q_rideId := 2; q_driverId := 1; q_now := 30 |}.

Definition assign_second : assign_request :=
  {| q_caller := admin; q_rideId := 2; q_driverId := 3; q_now := 31 |}.

(** What a test reads of a ride: id, driver, vehicle, status. *)
Definition assignment_of (r : ride_row)
  : Z * option Z * option Z * ride_status :=
  (r_id r, r_driver_id r, r_vehicle_id r, r_status r).

Definition answer_of (pc : assign_pc)
  : option (result (option (Z * option Z * option Z * ride_status))) :=
  match pc with
  | Responded (Ok r) => Some (Ok (option_map assignment_of r))
  | Responded (AppError m c) => Some (AppError m c)
  | _ => None
  end.

(** A booking from the equator (0, -75) to (41, -75), and one without
    coordinates. *)
Definition body_from_equator : create_ride_body :=
  {| startLocation := Some "Quito"; endLocation := Some "Clinic";
     startLatitude := Some 0%float; startLongitude := Some (-75)%float;
     endLatitude := Some 41%float; endLongitude := Some (-75)%float;
     rideDate := Some 1000; specialRequirements := None;
     emergencyContact := None; vehicleType := None |}.

Definition body_without_coordinates : create_ride_body :=
  {| startLocation := Some "Home"; endLocation := Some "Clinic";
     startLatitude := None; startLongitude := None;
     endLatitude := None; endLongitude := None;
     rideDate := Some 1000; specialRequirements := None;
     emergencyContact := None; vehicleType := None |}.

(** A store without rides; then a booking by [patient1] (ride 3), the
    assignment of driver 1 to it, and an admin's generic update of its
    status to pending. *)
Definition no_rides_db : Db := with_rides (fun _ => []) sample_db.

Definition booked_db : Db :=
  snd (postRide approx_math patient1 body_without_coordinates 40 no_rides_db).

Definition assigned_db : Db :=
  snd (assignDriver admin 3 (Some 1) 41 booked_db).

Definition back_to_pending : update_ride_body :=
  {| status := Some "pending"; fare := None; distance := None;
     durationMinutes := None |}.

Definition reverted_db : Db :=
  snd (patchRide false admin 3 back_to_pending 42 assigned_db).

(** Ride 1 with sixty tracking points, stamped 1 to 60 in table order. *)
Definition sample_point (n : nat) : tracking_row :=
  {| t_id := Z.of_nat n; t_ride_id := 1;
     t_latitude := 40.0%float; t_longitude := (-75)%float;
     t_timestamp := Z.of_nat n; t_speed := None; t_heading := None |}.

Definition busy_db : Db :=
  {| users := users sample_db; drivers := drivers sample_db;
     vehicles := vehicles sample_db; rides := rides sample_db;
     payments := payments sample_db;
     ride_tracking := map sample_point (seq 1 60);
     drivers_id_seq := 4; rides_id_seq := 3; ride_tracking_id_seq := 61 |}.

(** Stand-ins for the libraries of the registration handler: a token is
    the user id and the secret, an email must hold an at sign, every
    phone matches. *)
Definition sample_libs : Libs :=
  {| jwt_sign := fun uid _ _ secret => String.append uid (String.append "." secret);
     Joi_email := fun s => existsb (Ascii.eqb "@"%char) (list_ascii_of_string s);
     phone_pattern := fun _ => true |}.

Definition env_configured (fallback : bool) : Env :=
  {| JWT_SECRET := Some "access-secret";
     JWT_REFRESH_SECRET := Some "refresh-secret";
     in_memory_fallback := fallback |}.

Definition body_new_driver (mail licence : string) : register_body :=
  {| reg_name := Some "Dana"; reg_email := Some mail;
     reg_password := Some "correct horse"; reg_phone := None;
     reg_role := Some "driver"; reg_licenseNumber := Some licence;
     reg_vehicleType := Some "van" |}.



(** ** middleware/auth.js: authenticateToken *)

(** [s.split(' ')] *)
Fixpoint split_on_space (s : string) : list string :=
  match s with
  | EmptyString => [EmptyString]
  | String c rest =>
      if Ascii.eqb c " "%char then EmptyString :: split_on_space rest
      else
        match split_on_space rest with
        | w :: ws => String c w :: ws
        | [] => [String c EmptyString]
        end
  end.

(** [authHeader && authHeader.split(' ')[1]], [None] when the value is
    falsy ([undefined] or the empty string). *)
Definition header_token (authorization : option string) : option string :=
  match authorization with
  | None => None
  | Some h =>
      if String.eqb h "" then None
      else
        match nth_error (split_on_space h) 1 with
        | Some t => if String.eqb t "" then None else Some t
        | None => None
        end
  end.

(** What [jwt.verify] decodes: the payload [generateTokens] signed. *)
Record token_payload : Type := {
  tp_userId : string;
  tp_email : string;
  tp_role : role
}.

(** [authenticateToken]: [verify] is [jwt.verify] with the access secret
    ([None] when it throws).  The identity takes its id and role from
    the token; the store is only asked whether the user still exists. *)
Definition authenticateToken (verify : string -> option token_payload)
  (authorization : option string) (db : Db) : result identity :=
  match header_token authorization with
  | None => AppError "No token provided" 401
  | Some token =>
      match verify token with
      | None => AppError "Invalid or expired token" 403
      | Some decoded =>
          match filter (fun u => String.eqb (u_id u) (tp_userId decoded))
                  (users db) with
          | [] => AppError "User not found" 401
          | _ :: _ =>
              Ok {| id := tp_userId decoded; user_role := tp_role decoded |}
          end
      end
  end.

(** ** PATCH /drivers/availability (routes/drivers.js) *)

Definition set_availability (a : bool) (d : driver_row) : driver_row :=
  {| d_id := d_id d; d_user_id := d_user_id d;
     d_license_number := d_license_number d;
     d_vehicle_type := d_vehicle_type d;
     d_availability := a;
     d_rating := d_rating d; d_created_at := d_created_at d |}.

(** [availability] is [None] when the body's value is not a boolean. *)
Definition patchAvailability (user : identity) (availability : option bool)
  (db : Db) : result driver_row * Db :=
  match requireRole [Driver; Admin] user with
  | AppError m c => (AppError m c, db)
  | Ok _ =>
      match availability with
      | None => (AppError "Availability must be true or false" 400, db)
      | Some a =>
          let db' :=
            with_drivers
              (map (fun d => if String.eqb (d_user_id d) (id user)
                             then set_availability a d else d))
              (drivers_id_seq db) db in
          match filter (fun d => String.eqb (d_user_id d) (id user))
                  (drivers db') with
          | [] => (AppError "Driver record not found" 404, db')
          | d :: _ => (Ok d, db')
          end
      end
  end.

(** ** PATCH /users/profile (routes/users.js) *)

(** [if (name)], [if (phone)]: a missing or empty string is falsy. *)
Definition truthy_string (x : option string) : option string :=
  match x with
  | Some s => if String.eqb s "" then None else Some s
  | None => None
  end.

Definition set_profile (name phone : option string) (u : user_row) : user_row :=
  {| u_id := u_id u;
     u_name := match name with Some n => n | None => u_name u end;
     u_email := u_email u;
     u_password := u_password u;
     u_phone := match phone with Some p => Some p | None => u_phone u end;
     u_role := u_role u;
     u_created_at := u_created_at u |}.

(** [UPDATE users SET ... WHERE id = $n RETURNING ...]: refused when the
    new phone is the phone of another row. *)
Definition update_profile (userId : string) (name phone : option string)
  (db : Db) : option (list user_row) * Db :=
  let hit u := String.eqb (u_id u) userId in
  let clash :=
    match phone with
    | Some p =>
        existsb hit (users db)
        && existsb (fun x => negb (hit x) && same_phone (u_phone x) (Some p))
             (users db)
    | None => false
    end in
  if clash then (None, db)
  else
    let db' := with_users (map (fun u => if hit u then set_profile name phone u
                                        else u)) db in
    (Some (filter hit (users db')), db').

(** [PATCH /users/profile].  A refused statement is a unique violation:
    rethrown by one [query] wrapper and answered by [errorHandler],
    replaced by the simulated empty result by the other. *)
Definition patchProfile (fallback : bool) (user : identity)
  (name phone : option string) (db : Db) : result (option user_row) * Db :=
  match truthy_string name, truthy_string phone with
  | None, None => (AppError "No fields to update" 400, db)
  | n, p =>
      let (rows, s) :=
        query fallback [] (update_profile (id user) n p)
          {| store := db; txn_state := NoTxn |} in
      match rows with
      | Some l => (Ok (hd_error l), store s)
      | None => (answered unique_violation, store s)
      end
  end.

(** ** POST /auth/login (routes/auth.js) *)

Record login_body : Type := {
  login_email : option string;
  login_password : option string
}.

(** [loginSchema.validate(req.body)] *)
Definition loginSchema (L : Libs) (b : login_body) : option (string * string) :=
  match login_email b, login_password b with
  | Some e, Some pw =>
      if Joi_email L e && negb (String.eqb pw "") then Some (e, pw) else None
  | _, _ => None
  end.

(** The columns the [SELECT] of the login names. *)
Definition login_select_columns : list string :=
  ["id"; "name"; "email"; "phone"; "role"; "password"; "created_at"].

(** [SELECT id, name, email, phone, role, password, created_at FROM
    users WHERE email = $1]: refused when the table lacks one of the
    named columns. *)
Definition select_user_with_password (e : string) (db : Db)
  : option (list user_row) * Db :=
  if columns_exist users_columns login_select_columns
  then (Some (filter (fun u => String.eqb (u_email u) e) (users db)), db)
  else (None, db).

(** [POST /auth/login]: [compare] is [bcrypt.compare] on the password
    and the stored hash.  The handler has no [try]: an error of the
    [SELECT] that [query] rethrows, and an error thrown by
    [generateTokens], go to [errorHandler]. *)
Definition login (E : Env) (L : Libs) (compare : string -> string -> bool)
  (b : login_body) (db : Db) : result (user_row * (string * string)) :=
  match loginSchema L b with
  | None => AppError "ValidationError" 400
  | Some (e, pw) =>
      match fst (query (in_memory_fallback E) []
                   (select_user_with_password e)
                   {| store := db; txn_state := NoTxn |}) with
      | None => answered (undefined_column "password")
      | Some [] => AppError "Invalid email or password" 401
      | Some (user :: _) =>
          if compare pw (u_password user) then
            match generateTokens E L (Some user) with
            | Some tokens => Ok (user, tokens)
            | None =>
                answered {| err_name := "Error";
                            err_message := "secretOrPrivateKey must have a value";
                            err_statusCode := None; err_code := None |}
            end
          else AppError "Invalid email or password" 401
      end
  end.

(** ** POST /payments/create-intent and GET /payments/history
    (routes/payments.js) *)

Definition insert_payment (p : payment_row) (db : Db) : Db :=
  with_payments (fun l => (l ++ [p])%list) db.

(** [POST /payments/create-intent].  [round] is [Math.round]; [create]
    is [stripe.paymentIntents.create] on the amount in cents, the ride
    and the user, answering the intent's id and client secret ([None]
    when it throws); [newId] is the value drawn for [payments.id].  The
    statement names only columns the table has; the field
    [p_updated_at], which stands for no column of it, is filled with
    the insertion time. *)
Definition createIntent (round : float -> float)
  (create : float -> Z -> string -> option (string * string))
  (user : identity) (rideId : option Z) (amount : option float)
  (newId now : Z) (db : Db) : result (string * string) * Db :=
  match rideId, amount with
  | Some rid, Some a =>
      if falsy_id rideId || negb (truthy amount)
      then (AppError "Ride ID and amount are required" 400, db)
      else
        match filter (fun r => (r_id r =? rid)
                               && String.eqb (r_user_id r) (id user))
                (rides db) with
        | [] => (AppError "Ride not found" 404, db)
        | _ :: _ =>
            match create (round (a * 100)%float) rid (id user) with
            | None => (AppError "Failed to create payment intent" 500, db)
            | Some (intentId, clientSecret) =>
                (Ok (clientSecret, intentId),
                 insert_payment
                   {| p_id := newId; p_ride_id := Some rid;
                      p_user_id := id user; p_amount := a;
                      p_method := "credit_card"; p_status := PayPending;
                      p_stripe_payment_intent_id := intentId;
                      p_payment_date := now; p_created_at := now;
                      p_updated_at := now |} db)
            end
        end
  | _, _ => (AppError "Ride ID and amount are required" 400, db)
  end.

(** [GET /payments/history]: the caller's payments joined with their
    rides, newest first. *)
Definition paymentHistory (user : identity) (limit offset : nat) (db : Db)
  : list (payment_row * ride_row) :=
  limit_offset limit offset
    (order_by_desc (fun pr => p_created_at (fst pr))
       (flat_map
          (fun p =>
             if String.eqb (p_user_id p) (id user)
             then map (pair p)
                    (filter (fun r => col_eqb (p_ride_id p) (r_id r)) (rides db))
             else [])
          (payments db))).

(** A booking that asks for a van. *)
Definition body_with_van : create_ride_body :=
  {| startLocation := Some "Home"; endLocation := Some "Clinic";
     startLatitude := None; startLongitude := None;
     endLatitude := None; endLongitude := None;
     rideDate := Some 1000; specialRequirements := None;
     emergencyContact := None; vehicleType := Some "van" |}.

(** The sample store after one more booking by [patient1]: rides 2 and
    3 are pending. *)
Definition booked_twice_db : Db :=
  snd (postRide approx_math patient1 body_without_coordinates 25 sample_db).

(** A word of a header: no space in it. *)
Definition no_space (s : string) : Prop :=
  forall c, In c (list_ascii_of_string s) -> c <> " "%char.

(** A [bcrypt.compare] that accepts "correct horse" for the hash
    "hash". *)
Definition sample_compare (pw hash : string) : bool :=
  String.eqb pw "correct horse" && String.eqb hash "hash".


(** ** The webhook route behind the middleware of server.js *)













(** ** Assignment requests served one after the other *)

Record assign_call : Type := {
  a_caller : identity;
  a_driverId : option Z;
  a_now : Z
}.

(** The answers to a run of [POST /rides/:id/assign] requests for one
    ride, and the store after the last. *)
Fixpoint serve_assigns (R : Z) (calls : list assign_call) (db : Db)
  : list (result (option ride_row)) * Db :=
  match calls with
  | [] => ([], db)
  | c :: rest =>
      let (answer, db1) := assignDriver (a_caller c) R (a_driverId c) (a_now c) db in
      let (answers, db2) := serve_assigns R rest db1 in
      (answer :: answers, db2)
  end.

(** * Properties *)

(** ** Ordering and limits *)

Section OrderByFacts.
Context {A : Type} (key : A -> Z).

Lemma insert_desc_perm (x : A) (l : list A) :
  Permutation (x :: l) (insert_desc key x l).
Proof.
  induction l as [|y l IH]; simpl.
  - apply Permutation_refl.
  - destruct (key y <=? key x).
    + apply Permutation_refl.
    + eapply perm_trans; [apply perm_swap|]. now apply perm_skip.
Qed.

Lemma order_by_desc_perm (l : list A) :
  Permutation l (order_by_desc key l).
Proof.
  induction l as [|x l IH]; simpl.
  - apply perm_nil.
  - eapply perm_trans; [apply perm_skip, IH|]. apply insert_desc_perm.
Qed.

Lemma insert_desc_sorted (x : A) (l : list A) :
  StronglySorted (newer_first key) l ->
  StronglySorted (newer_first key) (insert_desc key x l).
Proof.
  induction 1 as [|y l Hs IH Hy]; simpl.
  - repeat constructor.
  - destruct (key y <=? key x) eqn:E.
    + apply Z.leb_le in E. constructor.
      * now constructor.
      * constructor; [exact E|].
        eapply Forall_impl; [|exact Hy]. unfold newer_first. intros; lia.
    + apply Z.leb_gt in E. constructor; [exact IH|].
      apply (Permutation_Forall (insert_desc_perm x l)).
      constructor; [unfold newer_first; lia | exact Hy].
Qed.

Lemma order_by_desc_sorted (l : list A) :
  StronglySorted (newer_first key) (order_by_desc key l).
Proof.
  induction l as [|x l IH]; simpl.
  - constructor.
  - now apply insert_desc_sorted.
Qed.

Lemma order_by_desc_In (l : list A) (x : A) :
  In x (order_by_desc key l) <-> In x l.
Proof.
  split; apply Permutation_in;
    [apply Permutation_sym|]; apply order_by_desc_perm.
Qed.

End OrderByFacts.

Lemma In_firstn {A : Type} (n : nat) (l : list A) (x : A) :
  In x (firstn n l) -> In x l.
Proof.
  intro H. rewrite <- (firstn_skipn n l). apply in_or_app. now left.
Qed.

Lemma In_skipn {A : Type} (n : nat) (l : list A) (x : A) :
  In x (skipn n l) -> In x l.
Proof.
  intro H. rewrite <- (firstn_skipn n l). apply in_or_app. now right.
Qed.

Lemma sorted_firstn {A : Type} (R : A -> A -> Prop) (n : nat) (l : list A) :
  StronglySorted R l -> StronglySorted R (firstn n l).
Proof.
  intro H. revert n. induction H as [|a l Hs IH Ha]; intro n.
  - rewrite firstn_nil. constructor.
  - destruct n as [|n]; simpl; constructor.
    + apply IH.
    + rewrite Forall_forall in *. intros x Hx. apply Ha.
      now apply In_firstn in Hx.
Qed.

Lemma sorted_split {A : Type} (R : A -> A -> Prop) (n : nat) (l : list A) :
  StronglySorted R l ->
  forall x y, In x (firstn n l) -> In y (skipn n l) -> R x y.
Proof.
  intro H. revert n. induction H as [|a l Hs IH Ha]; intros n x y Hx Hy.
  - rewrite firstn_nil in Hx. destruct Hx.
  - destruct n as [|n]; simpl in Hx, Hy; [destruct Hx|].
    destruct Hx as [<-|Hx].
    + rewrite Forall_forall in Ha. apply Ha. now apply In_skipn in Hy.
    + now apply (IH n).
Qed.

(** ** Visibility of rides *)

Lemma role_filter_driver_without_row (db : Db) (user : identity) (r : ride_row) :
  user_role user = Driver ->
  select_driver_by_user db (id user) = [] ->
  role_filter db user r = true.
Proof.
  intros Hrole Hnone. unfold role_filter. now rewrite Hrole, Hnone.
Qed.

(** A driver without a driver row lists exactly what an admin lists. *)
Lemma getRides_driver_without_row (db : Db) (user : identity)
  (st : option string) (limit offset : nat) :
  user_role user = Driver ->
  select_driver_by_user db (id user) = [] ->
  getRides user st limit offset db = getRides admin st limit offset db.
Proof.
  intros Hrole Hnone. unfold getRides. do 2 f_equal.
  apply filter_ext. intro r.
  now rewrite (role_filter_driver_without_row db user r Hrole Hnone).
Qed.

(** A driver without a driver row fetches by id exactly what an admin
    fetches. *)
Lemma getRideById_driver_without_row (db : Db) (user : identity) (rideId : Z) :
  user_role user = Driver ->
  select_driver_by_user db (id user) = [] ->
  getRideById user rideId db = getRideById admin rideId db.
Proof.
  intros Hrole Hnone. unfold getRideById.
  rewrite (filter_ext (fun r => (r_id r =? rideId) && role_filter db user r)
             (fun r => (r_id r =? rideId) && role_filter db admin r));
    [reflexivity|].
  intro r. now rewrite (role_filter_driver_without_row db user r Hrole Hnone).
Qed.

(** A patient lists only rides they requested. *)
Lemma getRides_patient_own (db : Db) (user : identity) (st : option string)
  (limit offset : nat) (r : ride_row) :
  user_role user = Patient ->
  In r (getRides user st limit offset db) ->
  r_user_id r = id user.
Proof.
  intros Hrole Hin. unfold getRides, limit_offset in Hin.
  apply In_firstn, In_skipn, order_by_desc_In, filter_In in Hin.
  destruct Hin as [_ Hf].
  apply andb_true_iff in Hf. destruct Hf as [Hf _].
  unfold role_filter in Hf. rewrite Hrole in Hf.
  now apply String.eqb_eq in Hf.
Qed.

(** A driver with a driver row lists only rides assigned to that row. *)
Lemma getRides_driver_own (db : Db) (user : identity) (st : option string)
  (limit offset : nat) (d : driver_row) (rest : list driver_row)
  (r : ride_row) :
  user_role user = Driver ->
  select_driver_by_user db (id user) = d :: rest ->
  In r (getRides user st limit offset db) ->
  r_driver_id r = Some (d_id d).
Proof.
  intros Hrole Hrow Hin. unfold getRides, limit_offset in Hin.
  apply In_firstn, In_skipn, order_by_desc_In, filter_In in Hin.
  destruct Hin as [_ Hf].
  apply andb_true_iff in Hf. destruct Hf as [Hf _].
  unfold role_filter in Hf. rewrite Hrole, Hrow in Hf.
  unfold col_eqb in Hf. destruct (r_driver_id r) as [c|]; [|discriminate].
  apply Z.eqb_eq in Hf. now subst.
Qed.

(** C1 (evaluated on the code): [driver2] has the role driver and no
    driver row.  Listing rides returns both rides of the store, among them
    ride 1, which is assigned to driver 1; fetching ride 1 by id returns
    it instead of NotFound. *)
Theorem driver_without_row_is_unscoped :
  select_driver_by_user sample_db (id driver2) = []
  /\ getRides driver2 None 20 0 sample_db
     = [ sample_ride 2 "u-patient1" None None Pending 20;
         sample_ride 1 "u-patient1" (Some 1) (Some 7) Accepted 10 ]
  /\ getRideById driver2 1 sample_db
     = Ok (sample_ride 1 "u-patient1" (Some 1) (Some 7) Accepted 10).
Proof.
  repeat split; reflexivity.
Qed.

(** ** Payment-driven completion *)

(** The webhook never writes the rides table. *)
Lemma webhook_keeps_rides (event : option stripe_event) (now : Z) (db : Db) :
  rides (snd (webhook event now db)) = rides db.
Proof.
  unfold webhook. destruct event as [e|]; [|reflexivity].
  destruct (String.eqb (event_type e) "payment_intent.succeeded");
    [reflexivity|].
  destruct (String.eqb (event_type e) "payment_intent.payment_failed");
    reflexivity.
Qed.

(** [payments] has no column [updated_at]: the [UPDATE] of the
    confirmation is refused. *)
Lemma confirm_update_refused :
  columns_exist payments_columns confirm_update_columns = false.
Proof.
  reflexivity.
Qed.

(** So the confirmation never gets past its [UPDATE]: whatever Stripe
    reports, the answer is the 500 of the [catch] and nothing is
    written. *)
Lemma confirmPayment_refused (retrieve : string -> option payment_intent)
  (user : identity) (paymentIntentId : string) (now : Z) (db : Db) :
  confirmPayment retrieve user paymentIntentId now db
  = (AppError "Failed to confirm payment" 500, db).
Proof.
  unfold confirmPayment. rewrite confirm_update_refused.
  destruct (retrieve paymentIntentId) as [intent|]; [|reflexivity].
  now destruct (negb (String.eqb (metadata_userId intent) (id user))).
Qed.







(** ** Replay of a webhook event *)

Lemma update_payments_twice (cond : payment_row -> bool)
  (f g : payment_row -> payment_row) (l : list payment_row) :
  (forall p, cond (f p) = cond p) ->
  update_payments_where cond g (update_payments_where cond f l)
  = update_payments_where cond (fun p => g (f p)) l.
Proof.
  intro Hc. unfold update_payments_where. rewrite map_map.
  apply map_ext. intro p. destruct (cond p) eqn:E.
  - now rewrite Hc, E.
  - now rewrite E.
Qed.

(** The handler's [switch], handed the same verified event twice,
    leaves the store a single pass at the later time leaves. *)
Lemma webhook_replay_absorbed (event : option stripe_event) (t1 t2 : Z) (db : Db) :
  snd (webhook event t2 (snd (webhook event t1 db)))
  = snd (webhook event t2 db).
Proof.
  unfold webhook. destruct event as [e|]; [|reflexivity].
  destruct (String.eqb (event_type e) "payment_intent.succeeded") eqn:E1.
  - simpl. unfold with_payments. simpl. f_equal.
    rewrite update_payments_twice by reflexivity.
    apply map_ext. intro p. now destruct (String.eqb _ _).
  - destruct (String.eqb (event_type e) "payment_intent.payment_failed") eqn:E2.
    + simpl. unfold with_payments. simpl. f_equal.
      rewrite update_payments_twice by reflexivity.
      apply map_ext. intro p. now destruct (String.eqb _ _).
    + reflexivity.
Qed.



(** ** Assignment *)

Lemma filter_cons_witness {A : Type} (f : A -> bool) (l : list A) :
  (exists x rest, filter f l = x :: rest) <-> (exists x, In x l /\ f x = true).
Proof.
  split.
  - intros [x [rest H]]. exists x. apply filter_In. rewrite H. now left.
  - intros [x Hx]. apply filter_In in Hx.
    destruct (filter f l) as [|y rest]; [destruct Hx | now exists y, rest].
Qed.

Lemma select_pending_ride_spec (db : Db) (rideId : Z) :
  (exists r rest, select_pending_ride db rideId = r :: rest)
  <-> (exists r, In r (rides db) /\ r_id r = rideId /\ r_status r = Pending).
Proof.
  unfold select_pending_ride. rewrite filter_cons_witness.
  split; intros [r [Hin H]]; exists r; split; try exact Hin.
  - apply andb_true_iff in H. destruct H as [H1 H2].
    apply Z.eqb_eq in H1. split; [exact H1|].
    now destruct (r_status r).
  - destruct H as [-> ->]. now rewrite Z.eqb_refl.
Qed.

Lemma select_available_driver_spec (db : Db) (driverId : Z) :
  (exists d rest,
      select_available_driver db driverId
      = (d, current_vehicle db driverId) :: rest)
  <-> (exists d, In d (drivers db) /\ d_id d = driverId /\ d_availability d = true).
Proof.
  unfold select_available_driver.
  set (f := fun d => (d_id d =? driverId) && d_availability d).
  split.
  - intros [d [rest H]].
    destruct (filter f (drivers db)) as [|d0 ds] eqn:E; [discriminate|].
    exists d0.
    assert (Hd0 : In d0 (drivers db) /\ f d0 = true).
    { apply filter_In. rewrite E. now left. }
    destruct Hd0 as [Hin Hf]. unfold f in Hf.
    apply andb_true_iff in Hf. destruct Hf as [H1 H2].
    apply Z.eqb_eq in H1. now repeat split.
  - intros [d [Hin [Hid Hav]]].
    assert (Hex : exists x rest, filter f (drivers db) = x :: rest).
    { apply filter_cons_witness. exists d. split; [exact Hin|].
      unfold f. now rewrite Hid, Z.eqb_refl, Hav. }
    destruct Hex as [d0 [ds E]]. rewrite E.
    assert (Hd0 : In d0 (drivers db) /\ f d0 = true).
    { apply filter_In. rewrite E. now left. }
    destruct Hd0 as [_ Hf]. unfold f in Hf.
    apply andb_true_iff in Hf. destruct Hf as [H1 _].
    apply Z.eqb_eq in H1.
    simpl. unfold left_join_vehicles, current_vehicle. rewrite H1.
    destruct (filter (fun v => col_eqb (v_driver_id v) driverId) (vehicles db))
      as [|v vs]; simpl; eauto.
Qed.

Lemma requireRole_admin (user : identity) :
  user_role user = Admin -> requireRole [Admin] user = Ok tt.
Proof.
  intro H. unfold requireRole. now rewrite H.
Qed.

Lemma falsy_id_nonzero (n : Z) : n <> 0 -> falsy_id (Some n) = false.
Proof.
  intro H. simpl. now apply Z.eqb_neq.
Qed.

(** What the handler answers, case by case. *)
Lemma assignDriver_cases (user : identity) (rideId dId now : Z) (db : Db) :
  user_role user = Admin -> dId <> 0 ->
  (select_pending_ride db rideId = []
   /\ assignDriver user rideId (Some dId) now db
      = (AppError "Ride not found or not available for assignment" 404, db))
  \/ (select_pending_ride db rideId <> []
      /\ select_available_driver db dId = []
      /\ assignDriver user rideId (Some dId) now db
         = (AppError "Driver not found or not available" 404, db))
  \/ (select_pending_ride db rideId <> []
      /\ (exists d rest,
             select_available_driver db dId
             = (d, current_vehicle db dId) :: rest)
      /\ assignDriver user rideId (Some dId) now db
         = (Ok (hd_error (snd (update_assignment dId (current_vehicle db dId)
                                 rideId now db))),
            fst (update_assignment dId (current_vehicle db dId) rideId now db))).
Proof.
  intros Hrole Hid. unfold assignDriver.
  rewrite (requireRole_admin user Hrole), (falsy_id_nonzero dId Hid).
  destruct (select_pending_ride db rideId) as [|r rs] eqn:Er.
  - left. now split.
  - right.
    destruct (select_available_driver db dId) as [|[d v] ds] eqn:Ed.
    + left. repeat split. discriminate.
    + right.
      assert (Hex : exists d' rest,
                 select_available_driver db dId
                 = (d', current_vehicle db dId) :: rest).
      { apply select_available_driver_spec.
        unfold select_available_driver in Ed.
        set (f := fun d0 => (d_id d0 =? dId) && d_availability d0) in Ed.
        destruct (filter f (drivers db)) as [|d0 ds0] eqn:E; [discriminate|].
        assert (H0 : In d0 (drivers db) /\ f d0 = true).
        { apply filter_In. rewrite E. now left. }
        destruct H0 as [Hin Hf]. unfold f in Hf. apply andb_true_iff in Hf.
        destruct Hf as [H1 H2]. apply Z.eqb_eq in H1. now exists d0. }
      destruct Hex as [d' [rest Hex]]. rewrite Ed in Hex.
      inversion Hex; subst.
      split; [discriminate|]. split; [now exists d', rest|]. reflexivity.
Qed.

Lemma update_where_id_hit (rideId : Z) (f : ride_row -> ride_row)
  (l : list ride_row) (r' : ride_row) :
  (forall r, r_id (f r) = r_id r) ->
  In r' (update_where_id rideId f l) -> r_id r' = rideId ->
  exists r, In r l /\ r' = f r.
Proof.
  intros Hf Hin Hid. unfold update_where_id in Hin.
  apply in_map_iff in Hin. destruct Hin as [r [Hr Hin]].
  exists r. split; [exact Hin|].
  destruct (r_id r =? rideId) eqn:E; [now symmetry|].
  apply Z.eqb_neq in E. subst r'. contradiction.
Qed.

Lemma update_where_id_miss (rideId : Z) (f : ride_row -> ride_row)
  (l : list ride_row) (r : ride_row) :
  In r l -> r_id r <> rideId -> In r (update_where_id rideId f l).
Proof.
  intros Hin Hid. unfold update_where_id. apply in_map_iff.
  exists r. split; [|exact Hin].
  apply Z.eqb_neq in Hid. now rewrite Hid.
Qed.

(** C3 (amended): for an admin caller and a driver id [X] given in the
    body and not zero, the
    assign operation on ride [R] succeeds if and only if [R] is a pending
    ride and [X] is a driver with availability true.  On success every
    row of [R] has driver [X], the vehicle registered for [X] (null when
    there is none) and status accepted, the answer carries that row, and
    the other rides and tables are as before.  Otherwise the answer is a
    404 and the store is unchanged. *)
Theorem assign_succeeds_iff (user : identity) (R X now : Z) (db : Db) :
  user_role user = Admin ->
  X <> 0 ->
  let answer := fst (assignDriver user R (Some X) now db) in
  let db' := snd (assignDriver user R (Some X) now db) in
  (is_ok answer = true
   <-> (exists r, In r (rides db) /\ r_id r = R /\ r_status r = Pending)
       /\ (exists d, In d (drivers db) /\ d_id d = X /\ d_availability d = true))
  /\ (is_ok answer = true ->
      (exists r', answer = Ok (Some r') /\ In r' (rides db') /\ r_id r' = R)
      /\ (forall r', In r' (rides db') -> r_id r' = R ->
            r_driver_id r' = Some X
            /\ r_vehicle_id r' = current_vehicle db X
            /\ r_status r' = Accepted)
      /\ (forall r, In r (rides db) -> r_id r <> R -> In r (rides db'))
      /\ drivers db' = drivers db /\ vehicles db' = vehicles db
      /\ users db' = users db /\ payments db' = payments db)
  /\ (is_ok answer = false ->
      statusCode_of answer = Some 404 /\ db' = db).
Proof.
  intros Hrole HX. cbv zeta.
  destruct (assignDriver_cases user R X now db Hrole HX)
    as [[Hr ->] | [[Hr [Hd ->]] | [Hr [Hd ->]]]]; simpl.
  - split; [|split; [discriminate | now split]].
    split; [discriminate|]. intros [Hp _].
    apply select_pending_ride_spec in Hp. destruct Hp as [r [rest Hp]].
    congruence.
  - split; [|split; [discriminate | now split]].
    split; [discriminate|]. intros [_ Ha].
    apply select_available_driver_spec in Ha. destruct Ha as [d [rest Ha]].
    congruence.
  - split; [|split; [|discriminate]].
    + split; [|reflexivity]. intros _. split.
      * apply select_pending_ride_spec.
        destruct (select_pending_ride db R) as [|r rs]; [contradiction|].
        now exists r, rs.
      * now apply select_available_driver_spec.
    + intros _.
      assert (Hp : exists r, In r (rides db) /\ r_id r = R /\ r_status r = Pending).
      { apply select_pending_ride_spec.
        destruct (select_pending_ride db R) as [|r rs]; [contradiction|].
        now exists r, rs. }
      destruct Hp as [r0 [Hin0 [Hid0 _]]].
      split; [|split; [|split]].
      * assert (Hne : exists x rest,
                   filter (fun r => r_id r =? R)
                     (update_where_id R
                        (set_assignment X (current_vehicle db X) now) (rides db))
                   = x :: rest).
        { apply filter_cons_witness.
          exists (set_assignment X (current_vehicle db X) now r0). split.
          - unfold update_where_id. apply in_map_iff. exists r0.
            split; [|exact Hin0]. now rewrite Hid0, Z.eqb_refl.
          - simpl. now rewrite Hid0, Z.eqb_refl. }
        destruct Hne as [x [rest Hne]]. rewrite Hne. simpl.
        exists x. split; [reflexivity|].
        assert (Hx : In x (update_where_id R
                             (set_assignment X (current_vehicle db X) now) (rides db))
                     /\ (r_id x =? R) = true).
        { apply (filter_In (fun r => r_id r =? R)). rewrite Hne. now left. }
        destruct Hx as [Hx1 Hx2]. apply Z.eqb_eq in Hx2. now split.
      * intros r' Hin' Hid'.
        destruct (update_where_id_hit R
                    (set_assignment X (current_vehicle db X) now)
                    (rides db) r' (fun _ => eq_refl) Hin' Hid') as [r [_ ->]].
        now repeat split.
      * intros r Hin Hne. now apply update_where_id_miss.
      * now repeat split.
Qed.

(** The equivalence of C3 for the admin assigning driver 3 to the
    pending ride 2 of the sample store. *)
Lemma assign_succeeds_iff_witness :
  is_ok (fst (assignDriver admin 2 (Some 3) 99 sample_db)) = true
  <-> (exists r, In r (rides sample_db) /\ r_id r = 2 /\ r_status r = Pending)
      /\ (exists d, In d (drivers sample_db) /\ d_id d = 3
                    /\ d_availability d = true).
Proof.
  exact (proj1 (assign_succeeds_iff admin 2 3 99 sample_db eq_refl
                  (fun H : 3 = 0 => Z.neq_sym _ _ (Z.lt_neq 0 3 eq_refl) H))).
Defined.

(** The two guards before the checks of the ride and of the driver: a
    caller who is not an admin is refused with 403, an admin's request
    with a missing or zero driver id with 400, and neither writes. *)
Lemma assignDriver_guards (user : identity) (R : Z) (driverId : option Z)
  (now : Z) (db : Db) :
  (user_role user <> Admin ->
   assignDriver user R driverId now db = (AppError "Access denied" 403, db))
  /\ (user_role user = Admin -> falsy_id driverId = true ->
      assignDriver user R driverId now db
      = (AppError "Driver ID is required" 400, db)).
Proof.
  unfold assignDriver, requireRole. split.
  - intro H. destruct (user_role user); try reflexivity. contradiction.
  - intros -> Hid. simpl. destruct driverId as [n|]; [|reflexivity].
    now rewrite Hid.
Qed.

(** C3, as stated, fails on the caller and on the class of the error.
    Ride 2 of the sample store is pending and driver 3 is available, yet
    the assignment asked by a patient is refused, with 403.  And there
    is no driver 0: the admin's request for driver 0 is refused with
    400, which is neither a NotFound nor a Conflict.  Both leave the
    store unchanged. *)
Lemma assign_refused_for_caller_or_id :
  (exists r, In r (rides sample_db) /\ r_id r = 2 /\ r_status r = Pending)
  /\ (exists d, In d (drivers sample_db) /\ d_id d = 3
                /\ d_availability d = true)
  /\ assignDriver patient1 2 (Some 3) 99 sample_db
     = (AppError "Access denied" 403, sample_db)
  /\ (forall d, In d (drivers sample_db) -> d_id d <> 0)
  /\ assignDriver admin 2 (Some 0) 99 sample_db
     = (AppError "Driver ID is required" 400, sample_db).
Proof.
  split; [|split; [|split; [|split]]].
  - exists (sample_ride 2 "u-patient1" None None Pending 20).
    split; [right; left; reflexivity | now split].
  - exists (sample_driver 3 "u-driver3" true).
    split; [right; left; reflexivity | now split].
  - reflexivity.
  - intros d [<-|[<-|[]]]; discriminate.
  - reflexivity.
Qed.

(** ** Concurrent assignment *)

(** The three stretches of one request, run without another request in
    between, are the handler. *)
Lemma assign_steps_alone (q : assign_request) (db : Db) :
  run_two q q [true; true; true] AtStart AtStart db
  = (Responded (fst (assignDriver (q_caller q) (q_rideId q)
                       (Some (q_driverId q)) (q_now q) db)),
     AtStart,
     snd (assignDriver (q_caller q) (q_rideId q)
            (Some (q_driverId q)) (q_now q) db)).
Proof.
  unfold assignDriver. simpl.
  destruct (requireRole [Admin] (q_caller q)); [|reflexivity].
  destruct (q_driverId q =? 0); [reflexivity|].
  destruct (select_pending_ride db (q_rideId q)); [reflexivity|].
  simpl.
  destruct (select_available_driver db (q_driverId q)) as [|[d v] ds];
    reflexivity.
Qed.

(** The final [UPDATE] names the ride by id only: it rewrites a ride
    whatever its current status. *)
Lemma update_assignment_unconditional (driverId : Z) (vehicleId : option Z)
  (rideId now : Z) (db : Db) (r : ride_row) :
  In r (rides db) -> r_id r = rideId ->
  In (set_assignment driverId vehicleId now r)
    (rides (fst (update_assignment driverId vehicleId rideId now db))).
Proof.
  intros Hin Hid. simpl. unfold update_where_id. apply in_map_iff.
  exists r. split; [|exact Hin]. now rewrite Hid, Z.eqb_refl.
Qed.

(** Whenever a ride is pending and two named drivers are available, the
    alternating schedule answers both admin requests with success. *)
Lemma interleaved_assign_both_answered (q1 q2 : assign_request) (db : Db) :
  user_role (q_caller q1) = Admin -> user_role (q_caller q2) = Admin ->
  q_driverId q1 <> 0 -> q_driverId q2 <> 0 ->
  q_rideId q2 = q_rideId q1 ->
  select_pending_ride db (q_rideId q1) <> [] ->
  select_available_driver db (q_driverId q1) <> [] ->
  select_available_driver db (q_driverId q2) <> [] ->
  exists v1 v2,
    run_two q1 q2 [true; false; true; false; true; false] AtStart AtStart db
    = (let out1 := update_assignment (q_driverId q1) v1 (q_rideId q1)
                     (q_now q1) db in
       let out2 := update_assignment (q_driverId q2) v2 (q_rideId q2)
                     (q_now q2) (fst out1) in
       (Responded (Ok (hd_error (snd out1))),
        Responded (Ok (hd_error (snd out2))),
        fst out2)).
Proof.
  intros Ha1 Ha2 Hd1 Hd2 Hride Hp Hav1 Hav2.
  destruct (select_available_driver db (q_driverId q1)) as [|[d1 v1] l1] eqn:E1;
    [contradiction|].
  destruct (select_available_driver db (q_driverId q2)) as [|[d2 v2] l2] eqn:E2;
    [contradiction|].
  exists v1, v2.
  destruct (select_pending_ride db (q_rideId q1)) as [|r rs] eqn:Ep;
    [contradiction|].
  assert (S1 : assign_step q1 AtStart db = (AfterRideCheck, db)).
  { cbn [assign_step].
    now rewrite (requireRole_admin _ Ha1), (falsy_id_nonzero _ Hd1), Ep. }
  assert (S2 : assign_step q2 AtStart db = (AfterRideCheck, db)).
  { cbn [assign_step].
    now rewrite (requireRole_admin _ Ha2), (falsy_id_nonzero _ Hd2), Hride, Ep. }
  assert (S3 : assign_step q1 AfterRideCheck db = (AfterDriverCheck v1, db)).
  { cbn [assign_step]. now rewrite E1. }
  assert (S4 : assign_step q2 AfterRideCheck db = (AfterDriverCheck v2, db)).
  { cbn [assign_step]. now rewrite E2. }
  cbn [run_two]. rewrite S1, S2, S3, S4. cbn [assign_step].
  destruct (update_assignment (q_driverId q1) v1 (q_rideId q1) (q_now q1) db)
    as [db1 rows1].
  cbn [fst snd].
  destruct (update_assignment (q_driverId q2) v2 (q_rideId q2) (q_now q2) db1)
    as [db2 rows2].
  reflexivity.
Qed.

(** One request after the other: the first is served, the second finds
    the ride no longer pending. *)
Lemma sequential_assign_one_succeeds :
  let '(pc1, pc2, db') :=
    run_two assign_first assign_second
      [true; true; true; false; false; false] AtStart AtStart sample_db in
  answer_of pc1 = Some (Ok (Some (2, Some 1, Some 7, Accepted)))
  /\ answer_of pc2
     = Some (AppError "Ride not found or not available for assignment" 404)
  /\ map assignment_of (rides db')
     = [(1, Some 1, Some 7, Accepted); (2, Some 1, Some 7, Accepted)].
Proof.
  repeat split; reflexivity.
Qed.

(** C4 (evaluated on the code): both requests check ride 2 while it is
    still pending, then both update it.  Both are answered with success,
    the first with driver 1 on the ride, the second with driver 3, and
    the ride ends with driver 3: a double assignment, with no
    Conflict-class failure. *)
Theorem concurrent_assign_both_succeed :
  let '(pc1, pc2, db') :=
    run_two assign_first assign_second
      [true; false; true; false; true; false] AtStart AtStart sample_db in
  answer_of pc1 = Some (Ok (Some (2, Some 1, Some 7, Accepted)))
  /\ answer_of pc2 = Some (Ok (Some (2, Some 3, None, Accepted)))
  /\ map assignment_of (rides db')
     = [(1, Some 1, Some 7, Accepted); (2, Some 3, None, Accepted)].
Proof.
  repeat split; reflexivity.
Qed.

(** ** Fare of a new ride *)

Section FareFacts.
Variable M : MathLib.

Lemma truthy_zero (x : float) :
  PrimFloat.eqb x 0%float = true -> truthy (Some x) = false.
Proof.
  intro H. simpl. now rewrite H.
Qed.

(** Without coordinates the fare is the base fare. *)
Lemma estimatedFare_without_coordinates :
  estimatedFare M None None None None = 15.0%float.
Proof. reflexivity. Qed.

(** With four truthy coordinates the fare is the base fare plus 2.5 per
    mile of [calculateDistance]. *)
Lemma estimatedFare_truthy (lat1 lon1 lat2 lon2 : float) :
  truthy (Some lat1) = true -> truthy (Some lon1) = true ->
  truthy (Some lat2) = true -> truthy (Some lon2) = true ->
  estimatedFare M (Some lat1) (Some lon1) (Some lat2) (Some lon2)
  = (15.0 + calculateDistance M lat1 lon1 lat2 lon2 * 2.5)%float.
Proof.
  intros H1 H2 H3 H4. unfold estimatedFare. now rewrite H1, H2, H3, H4.
Qed.

Lemma estimatedFare_zero (lat1 lon1 lat2 lon2 : float) :
  PrimFloat.eqb lat1 0%float = true \/ PrimFloat.eqb lon1 0%float = true
  \/ PrimFloat.eqb lat2 0%float = true \/ PrimFloat.eqb lon2 0%float = true ->
  estimatedFare M (Some lat1) (Some lon1) (Some lat2) (Some lon2) = 15.0%float.
Proof.
  intros [H|[H|[H|H]]]; unfold estimatedFare;
    rewrite (truthy_zero _ H), ?andb_false_r; reflexivity.
Qed.

(** A request that passes the role gate and the schema is stored. *)
Lemma postRide_accepts (user : identity) (b : create_ride_body) (now : Z)
  (db : Db) :
  requireRole [Patient; Admin] user = Ok tt ->
  createRideSchema now b = true ->
  exists ride candidates,
    postRide M user b now db = (Ok (ride, candidates), insert_ride ride db)
    /\ r_fare ride
       = Some (estimatedFare M (startLatitude b) (startLongitude b)
                 (endLatitude b) (endLongitude b))
    /\ r_status ride = Pending
    /\ r_driver_id ride = None /\ r_vehicle_id ride = None.
Proof.
  intros Hrole Hschema. unfold postRide. rewrite Hrole, Hschema.
  unfold createRideSchema in Hschema.
  repeat (apply andb_true_iff in Hschema; destruct Hschema as [Hschema ?]).
  destruct (startLocation b) as [s|]; [|discriminate].
  destruct (endLocation b) as [e|]; [|discriminate].
  destruct (rideDate b) as [t|]; [|discriminate].
  eexists. eexists. split; [reflexivity|]. now repeat split.
Qed.

(** C5 (evaluated on the code): a booking from (0, -75) to (41, -75)
    supplies all four coordinates and passes the schema, and its stored
    fare is the base fare 15.0, whatever the distance function returns;
    the booking without coordinates is stored with 15.0 as well. *)
Theorem fare_from_equator_is_base_fare :
  createRideSchema 0 body_from_equator = true
  /\ option_map (fun out => r_fare (fst out))
       (match fst (postRide M patient1 body_from_equator 0 sample_db) with
        | Ok out => Some out
        | AppError _ _ => None
        end)
     = Some (Some 15.0%float)
  /\ option_map (fun out => r_fare (fst out))
       (match fst (postRide M patient1 body_without_coordinates 0 sample_db) with
        | Ok out => Some out
        | AppError _ _ => None
        end)
     = Some (Some 15.0%float).
Proof.
  repeat split; reflexivity.
Qed.

(** C10: a booking that passes the role gate and the schema, supplies
    all four coordinates and has at least one of them equal to 0 is
    stored with the base fare 15.0. *)
Theorem zero_coordinate_fare_is_base (user : identity) (b : create_ride_body)
  (now : Z) (db : Db) (lat1 lon1 lat2 lon2 : float) :
  requireRole [Patient; Admin] user = Ok tt ->
  createRideSchema now b = true ->
  startLatitude b = Some lat1 -> startLongitude b = Some lon1 ->
  endLatitude b = Some lat2 -> endLongitude b = Some lon2 ->
  PrimFloat.eqb lat1 0%float = true \/ PrimFloat.eqb lon1 0%float = true
  \/ PrimFloat.eqb lat2 0%float = true \/ PrimFloat.eqb lon2 0%float = true ->
  exists ride candidates,
    postRide M user b now db = (Ok (ride, candidates), insert_ride ride db)
    /\ In ride (rides (insert_ride ride db))
    /\ r_fare ride = Some 15.0%float.
Proof.
  intros Hrole Hschema E1 E2 E3 E4 Hzero.
  destruct (postRide_accepts user b now db Hrole Hschema)
    as [ride [candidates [Hpost [Hfare _]]]].
  exists ride, candidates. split; [exact Hpost|]. split.
  - simpl. apply in_or_app. right. now left.
  - rewrite Hfare, E1, E2, E3, E4. f_equal. now apply estimatedFare_zero.
Qed.

End FareFacts.

(** The booking from the equator, by [patient1] on the sample store. *)
Lemma zero_coordinate_fare_is_base_witness :
  exists ride candidates,
    postRide approx_math patient1 body_from_equator 0 sample_db
    = (Ok (ride, candidates), insert_ride ride sample_db)
    /\ In ride (rides (insert_ride ride sample_db))
    /\ r_fare ride = Some 15.0%float.
Proof.
  apply (zero_coordinate_fare_is_base approx_math patient1 body_from_equator
           0 sample_db 0%float (-75)%float 41%float (-75)%float);
    try reflexivity.
  left. reflexivity.
Defined.

(** ** The ride invariant *)

Lemma Forall_map_same {A : Type} (P : A -> Prop) (f : A -> A) (l : list A) :
  (forall x, P x -> P (f x)) -> Forall P l -> Forall P (map f l).
Proof.
  intros Hf H. induction H; simpl; constructor; auto.
Qed.

Lemma status_of_text_pending (s : string) :
  status_of_text s = Some Pending -> s = "pending".
Proof.
  unfold status_of_text.
  destruct (String.eqb s "pending") eqn:E; [intros _; now apply String.eqb_eq|].
  repeat match goal with
         | |- context [if ?c then _ else _] => destruct c
         end; discriminate.
Qed.

Lemma ride_ok_not_pending (r : ride_row) :
  r_status r <> Pending -> ride_ok r = true.
Proof.
  intro H. unfold ride_ok. destruct (r_status r); try contradiction;
    now rewrite andb_false_r.
Qed.

Lemma ride_ok_set_fields (st : option ride_status) (b : update_ride_body)
  (now : Z) (r : ride_row) :
  st <> Some Pending -> ride_ok r = true -> ride_ok (set_fields st b now r) = true.
Proof.
  intros Hst Hok. destruct st as [s|].
  - apply ride_ok_not_pending. simpl. congruence.
  - exact Hok.
Qed.

Lemma ride_ok_clear_vehicle (vehicleId : Z) (r : ride_row) :
  ride_ok r = true -> ride_ok (clear_vehicle vehicleId r) = true.
Proof.
  unfold clear_vehicle. destruct (col_eqb (r_vehicle_id r) vehicleId); [|auto].
  unfold ride_ok, assigned. simpl.
  destruct (r_driver_id r), (r_vehicle_id r), (r_status r); auto.
Qed.

Lemma invariant_postRide (M : MathLib) (user : identity) (b : create_ride_body)
  (now : Z) (db : Db) :
  invariant db -> invariant (snd (postRide M user b now db)).
Proof.
  intro H. unfold postRide.
  destruct (requireRole [Patient; Admin] user); [|exact H].
  destruct (createRideSchema now b); [|exact H].
  destruct (startLocation b); [|exact H].
  destruct (endLocation b); [|exact H].
  destruct (rideDate b); [|exact H].
  unfold invariant. simpl. apply Forall_app. split; [exact H|].
  now repeat constructor.
Qed.

Lemma invariant_patchRide (fallback : bool) (user : identity) (rideId : Z)
  (b : update_ride_body) (now : Z) (db : Db) :
  not_to_pending b ->
  invariant db -> invariant (snd (patchRide fallback user rideId b now db)).
Proof.
  intros Hb H. unfold patchRide.
  destruct (requireRole [Driver; Admin] user); [|exact H].
  destruct (updateRideSchema b) as [st|] eqn:Es; [|exact H].
  destruct (patch_permission db user rideId) as [|r0 rs]; [exact H|].
  destruct (int4_in (durationMinutes b)) as [err|];
    [now destruct fallback|].
  unfold invariant. simpl. unfold update_where_id.
  apply Forall_map_same; [|exact H].
  intros r Hr. destruct (r_id r =? rideId); [|exact Hr].
  apply ride_ok_set_fields; [|exact Hr].
  intro Hst. subst st. unfold updateRideSchema in Es.
  destruct (min_zero (fare b) && min_zero (distance b)
            && min_zero (durationMinutes b)); [|discriminate].
  destruct (status b) as [s|] eqn:E; [|discriminate].
  destruct (status_of_text s) as [x|] eqn:Ex; [|discriminate].
  inversion Es; subst x. apply status_of_text_pending in Ex. subst s.
  now apply Hb.
Qed.

Lemma invariant_assignDriver (user : identity) (rideId : Z)
  (driverId : option Z) (now : Z) (db : Db) :
  invariant db -> invariant (snd (assignDriver user rideId driverId now db)).
Proof.
  intro H. unfold assignDriver.
  destruct (requireRole [Admin] user); [|exact H].
  destruct driverId as [dId|]; [|exact H].
  destruct (falsy_id (Some dId)); [exact H|].
  destruct (select_pending_ride db rideId) as [|r0 rs]; [exact H|].
  destruct (select_available_driver db dId) as [|[d v] ds]; [exact H|].
  unfold invariant. simpl. unfold update_where_id.
  apply Forall_map_same; [|exact H].
  intros r Hr. destruct (r_id r =? rideId); [|exact Hr].
  now apply ride_ok_not_pending.
Qed.

Lemma invariant_confirmPayment (retrieve : string -> option payment_intent)
  (user : identity) (paymentIntentId : string) (now : Z) (db : Db) :
  invariant db ->
  invariant (snd (confirmPayment retrieve user paymentIntentId now db)).
Proof.
  intro H. now rewrite confirmPayment_refused.
Qed.

Lemma invariant_postTracking (user : identity) (rideId : Z)
  (lat lon speed heading : option float) (now : Z) (db : Db) :
  invariant db ->
  invariant (snd (postTracking user rideId lat lon speed heading now db)).
Proof.
  intro H. unfold postTracking.
  destruct (requireRole [Driver] user); [|exact H].
  destruct lat as [la|]; [|exact H]. destruct lon as [lo|]; [|exact H].
  destruct (truthy (Some la) && truthy (Some lo)); [|exact H].
  destruct (select_driver_by_user db (id user)) as [|d ds]; [exact H|].
  match goal with
  | |- context [filter ?c (rides db)] => destruct (filter c (rides db))
  end; exact H.
Qed.

Lemma invariant_deleteVehicle (user : identity) (vehicleId : Z) (db : Db) :
  invariant db -> invariant (snd (deleteVehicle user vehicleId db)).
Proof.
  intro H. unfold deleteVehicle.
  destruct (requireRole [Admin] user); [|exact H].
  match goal with
  | |- context [filter ?c (vehicles db)] => destruct (filter c (vehicles db))
  end; [exact H|].
  unfold invariant. simpl. apply Forall_map_same; [|exact H].
  apply ride_ok_clear_vehicle.
Qed.

Lemma invariant_step (M : MathLib) (db db' : Db) :
  step M not_to_pending db db' -> invariant db -> invariant db'.
Proof.
  intros Hstep H.
  destruct Hstep as [user b now db | fallback user rideId b now db Hb
                    | user rideId driverId now db
                    | retrieve user paymentIntentId now db
                    | event now db
                    | user rideId lat lon speed heading now db
                    | user vehicleId db
                    | db db' Hsame].
  - now apply invariant_postRide.
  - now apply invariant_patchRide.
  - now apply invariant_assignDriver.
  - now apply invariant_confirmPayment.
  - unfold invariant. now rewrite webhook_keeps_rides.
  - now apply invariant_postTracking.
  - now apply invariant_deleteVehicle.
  - unfold invariant in *. now rewrite Hsame.
Qed.

Lemma assigned_db_reachable (permitted : update_ride_body -> Prop) :
  reachable approx_math permitted assigned_db.
Proof.
  apply (reach_step _ _ booked_db).
  - apply (reach_step _ _ no_rides_db).
    + apply reach_init. reflexivity.
    + apply step_create.
  - apply step_assign.
Qed.

(** C6, as stated, fails: the store reached by a booking, the
    assignment of driver 1 and a generic update of the status to pending
    holds a pending ride with a driver and a vehicle. *)
Lemma pending_ride_with_driver_reachable :
  reachable approx_math any_body reverted_db
  /\ map assignment_of (rides reverted_db) = [(3, Some 1, Some 7, Pending)]
  /\ ~ invariant reverted_db.
Proof.
  split; [|split].
  - apply (reach_step _ _ assigned_db).
    + apply assigned_db_reachable.
    + apply step_patch. exact I.
  - reflexivity.
  - intro H. unfold invariant in H. vm_compute in H.
    inversion H as [|r l Hr Hl]. discriminate Hr.
Qed.

(** C6 (amended): every store reached from one without rides by
    bookings, assignments, payment confirmations, webhooks, tracking
    points, vehicle deletions, the routes that do not write rides, and
    generic updates whose body does not set the status to pending,
    satisfies the invariant: a ride with a driver or a vehicle is not
    pending. *)
Theorem invariant_reachable (M : MathLib) (db : Db) :
  reachable M not_to_pending db -> invariant db.
Proof.
  induction 1 as [db Hinit | db db' Hreach IH Hstep].
  - unfold invariant. rewrite Hinit. constructor.
  - now apply (invariant_step M db db').
Qed.

(** The store after a booking and an assignment satisfies the
    invariant. *)
Lemma invariant_reachable_witness : invariant assigned_db.
Proof.
  apply (invariant_reachable approx_math).
  apply (reach_step _ _ booked_db).
  - apply (reach_step _ _ no_rides_db).
    + apply reach_init. reflexivity.
    + apply step_create.
  - apply step_assign.
Defined.

(** ** Tracking retrieval *)

(** An admin always gets the tracking rows. *)
Lemma getTracking_admin (user : identity) (rideId : Z) (db : Db) :
  user_role user = Admin ->
  getTracking user rideId db = Ok (select_tracking db rideId).
Proof.
  intro H. unfold getTracking. rewrite H.
  now destruct (tracking_permission db user rideId).
Qed.

(** Whenever rows are returned, they are the rows of the query. *)
Lemma getTracking_rows (user : identity) (rideId : Z) (db : Db)
  (rows : list tracking_row) :
  getTracking user rideId db = Ok rows -> rows = select_tracking db rideId.
Proof.
  unfold getTracking.
  destruct (tracking_permission db user rideId);
    destruct (role_eqb (user_role user) Admin); congruence.
Qed.

(** C9: the rows returned by tracking retrieval are at most 50, ordered
    by timestamp newest first, all samples of the ride; they are 50 when
    the ride has more than 50 samples, and every sample of the ride left
    out is no newer than any returned one. *)
Theorem tracking_newest_50 (user : identity) (rideId : Z) (db : Db)
  (rows : list tracking_row) :
  getTracking user rideId db = Ok rows ->
  let samples := filter (fun t => t_ride_id t =? rideId) (ride_tracking db) in
  (List.length rows <= 50)%nat
  /\ StronglySorted (newer_first t_timestamp) rows
  /\ (forall t, In t rows -> In t (ride_tracking db) /\ t_ride_id t = rideId)
  /\ List.length rows = Nat.min 50 (List.length samples)
  /\ exists older,
       Permutation (rows ++ older)%list samples
       /\ forall t t', In t rows -> In t' older ->
                       t_timestamp t' <= t_timestamp t.
Proof.
  intros Hget samples. apply getTracking_rows in Hget. subst rows.
  unfold select_tracking. fold samples.
  assert (Hlen : List.length (firstn 50 (order_by_desc t_timestamp samples))
                 = Nat.min 50 (List.length samples)).
  { rewrite length_firstn.
    now rewrite <- (Permutation_length (order_by_desc_perm t_timestamp samples)). }
  split; [rewrite Hlen; apply Nat.le_min_l|].
  split; [apply sorted_firstn, order_by_desc_sorted|].
  split; [|split; [exact Hlen|]].
  - intros t Ht. apply In_firstn, order_by_desc_In in Ht.
    unfold samples in Ht.
    apply (filter_In (fun t => t_ride_id t =? rideId)) in Ht.
    destruct Ht as [Hin Hid]. apply Z.eqb_eq in Hid. now split.
  - exists (skipn 50 (order_by_desc t_timestamp samples)). split.
    + rewrite firstn_skipn. apply Permutation_sym, order_by_desc_perm.
    + intros t t' Ht Ht'.
      apply (sorted_split (newer_first t_timestamp) 50
               (order_by_desc t_timestamp samples)
               (order_by_desc_sorted t_timestamp samples) t t' Ht Ht').
Qed.

(** Ride 1 of [busy_db] has sixty samples; an admin reads fifty,
    newest first. *)
Lemma tracking_newest_50_witness :
  (List.length (select_tracking busy_db 1) <= 50)%nat
  /\ StronglySorted (newer_first t_timestamp) (select_tracking busy_db 1).
Proof.
  pose proof (tracking_newest_50 admin 1 busy_db (select_tracking busy_db 1)
                eq_refl) as H.
  cbv zeta in H. split; [exact (proj1 H) | exact (proj1 (proj2 H))].
Defined.

(** ** Registration *)


(** [users] has no column [password]: the [INSERT] of the registration
    is refused. *)
Lemma insert_user_refused (u : user_row) (db : Db) :
  insert_user u db = (None, db).
Proof.
  reflexivity.
Qed.

Lemma restore_same (db : Db) : restore db db = db.
Proof.
  now destruct db.
Qed.

(** The body of the [try] on the tables of [initDatabase]: the user
    insert is refused.  The rethrowing wrapper stops there, inside the
    open transaction.  The other wrapper goes on with simulated results
    on the aborted transaction, whose [COMMIT] rolls back, and then
    looks the user up by the new id. *)
Lemma register_try_refused (E : Env) (L : Libs) (v : register_value)
  (userId hashedPassword : string) (now : Z) (db : Db) :
  register_try E L v userId hashedPassword now
    {| store := db; txn_state := NoTxn |}
  = if in_memory_fallback E then
      let found := hd_error (filter (fun u => String.eqb (u_id u) userId)
                               (users db)) in
      (match found, generateTokens E L found with
       | Some user, Some tokens => Some (user, tokens)
       | _, _ => None
       end,
       {| store := restore db db; txn_state := NoTxn |})
    else (None, {| store := db; txn_state := Aborted db |}).
Proof.
  unfold register_try, query, pg_begin. simpl txn_state. cbv iota.
  unfold pg_exec at 1. simpl txn_state. cbv iota. simpl store.
  destruct (in_memory_fallback E); [|reflexivity].
  cbv zeta.
  destruct (new_role v); [| destruct (licenseNumber v), (new_vehicleType v) |];
    simpl;
    destruct (hd_error (filter (fun u => String.eqb (u_id u) userId) (users db)));
    try reflexivity;
    now destruct (generateTokens E L (Some u)).
Qed.



(** A driver's registration with an email of the sample store: 409.
    With a new email: the generic 500.  Both leave the store as it was,
    under either [query] wrapper. *)
Lemma register_refusals (fallback : bool) :
  register (env_configured fallback) sample_libs
    (body_new_driver "d1@x.org" "LIC-9") "u-new" "hash" 77 sample_db
  = (AppError "User with this email already exists" 409, sample_db)
  /\ register (env_configured fallback) sample_libs
       (body_new_driver "dana@x.org" "LIC-9") "u-new" "hash" 77 sample_db
     = (AppError "Registration failed" 500, sample_db).
Proof.
  destruct fallback; split; reflexivity.
Qed.

(** * Further properties of the handlers *)

(** ** Listing and fetching rides *)

Lemma filter_all_false {A : Type} (f : A -> bool) (l : list A) :
  (forall x, In x l -> f x = false) -> filter f l = [].
Proof.
  induction l as [|a l IH]; intro H; simpl; [reflexivity|].
  rewrite (H a (or_introl eq_refl)). apply IH. intros x Hx. apply H. now right.
Qed.

Lemma filter_length_le {A : Type} (f : A -> bool) (l : list A) :
  (List.length (filter f l) <= List.length l)%nat.
Proof.
  induction l as [|a l IH]; simpl; [lia|]. destruct (f a); simpl; lia.
Qed.

Lemma status_of_text_status_text (st : ride_status) :
  status_of_text (status_text st) = Some st.
Proof. now destruct st. Qed.

(** X1: a patient's unfiltered listing, with a limit that covers the table,
    is exactly the set of rides the patient requested. *)
Theorem patient_lists_exactly_own (user : identity) (limit : nat) (db : Db)
  (r : ride_row) :
  user_role user = Patient ->
  (List.length (rides db) <= limit)%nat ->
  In r (getRides user None limit 0 db)
  <-> In r (rides db) /\ r_user_id r = id user.
Proof.
  intros Hrole Hlimit. unfold getRides, limit_offset. simpl skipn.
  rewrite firstn_all2.
  - rewrite order_by_desc_In, filter_In. unfold role_filter. rewrite Hrole.
    simpl. rewrite andb_true_r, String.eqb_eq. reflexivity.
  - rewrite <- (Permutation_length (order_by_desc_perm r_created_at _)).
    eapply Nat.le_trans; [apply filter_length_le | exact Hlimit].
Qed.

Lemma patient_lists_exactly_own_witness :
  In (sample_ride 1 "u-patient1" (Some 1) (Some 7) Accepted 10)
    (getRides patient1 None 5 0 sample_db)
  <-> In (sample_ride 1 "u-patient1" (Some 1) (Some 7) Accepted 10)
        (rides sample_db)
      /\ r_user_id (sample_ride 1 "u-patient1" (Some 1) (Some 7) Accepted 10)
         = id patient1.
Proof.
  apply (patient_lists_exactly_own patient1 5 sample_db); [reflexivity|].
  simpl. repeat constructor.
Defined.

(** X2: a patient fetches by id only a ride they requested; for an id that
    is missing or belongs to someone else the answer is the same 404. *)
Theorem patient_fetches_only_own (user : identity) (rideId : Z) (db : Db) :
  user_role user = Patient ->
  (forall r, getRideById user rideId db = Ok r ->
             In r (rides db) /\ r_id r = rideId /\ r_user_id r = id user)
  /\ ((forall r, In r (rides db) -> r_id r = rideId -> r_user_id r <> id user) ->
      getRideById user rideId db = AppError "Ride not found" 404).
Proof.
  intro Hrole. unfold getRideById.
  set (f := fun r => (r_id r =? rideId) && role_filter db user r).
  assert (Hf : forall r, f r = true <-> r_id r = rideId /\ r_user_id r = id user).
  { intro r. unfold f, role_filter. rewrite Hrole, andb_true_iff.
    now rewrite Z.eqb_eq, String.eqb_eq. }
  split.
  - intros r Hr. destruct (filter f (rides db)) as [|x xs] eqn:E; [discriminate|].
    inversion Hr; subst x.
    assert (Hin : In r (rides db) /\ f r = true).
    { apply filter_In. rewrite E. now left. }
    destruct Hin as [Hin Hfr]. apply Hf in Hfr. tauto.
  - intro Hforeign. rewrite filter_all_false; [reflexivity|].
    intros x Hx. destruct (f x) eqn:E; [|reflexivity].
    apply Hf in E. destruct E as [E1 E2]. now destruct (Hforeign x Hx E1).
Qed.

Lemma patient_fetches_only_own_witness :
  getRideById patient1 7 sample_db = AppError "Ride not found" 404.
Proof.
  apply (proj2 (patient_fetches_only_own patient1 7 sample_db eq_refl)).
  intros r [<-|[<-|[]]]; discriminate.
Defined.

(** X3: a driver who has a driver row lists and fetches only rides assigned
    to that row. *)
Theorem driver_with_row_sees_only_assigned (user : identity) (d : driver_row)
  (rest : list driver_row) (db : Db) :
  user_role user = Driver ->
  select_driver_by_user db (id user) = d :: rest ->
  (forall st limit offset r,
      In r (getRides user st limit offset db) -> r_driver_id r = Some (d_id d))
  /\ (forall rideId r,
        getRideById user rideId db = Ok r -> r_driver_id r = Some (d_id d)).
Proof.
  intros Hrole Hrow.
  assert (Hf : forall r, role_filter db user r = true ->
                         r_driver_id r = Some (d_id d)).
  { intro r. unfold role_filter. rewrite Hrole, Hrow. unfold col_eqb.
    destruct (r_driver_id r) as [c|]; [|discriminate].
    intro H. apply Z.eqb_eq in H. now subst. }
  split.
  - intros st limit offset r Hin. unfold getRides, limit_offset in Hin.
    apply In_firstn, In_skipn, order_by_desc_In, filter_In in Hin.
    destruct Hin as [_ H]. apply andb_true_iff in H. now apply Hf.
  - intros rideId r. unfold getRideById.
    set (f := fun r0 => (r_id r0 =? rideId) && role_filter db user r0).
    destruct (filter f (rides db)) as [|x xs] eqn:E; [discriminate|].
    intro Hr. inversion Hr; subst x.
    assert (Hin : In r (rides db) /\ f r = true).
    { apply filter_In. rewrite E. now left. }
    destruct Hin as [_ H]. apply andb_true_iff in H. now apply Hf.
Qed.

Lemma driver_with_row_sees_only_assigned_witness :
  r_driver_id (sample_ride 1 "u-patient1" (Some 1) (Some 7) Accepted 10)
  = Some 1.
Proof.
  exact (proj2 (driver_with_row_sees_only_assigned driver1
                  (sample_driver 1 "u-driver1" true) [] sample_db
                  eq_refl eq_refl) 1 _ eq_refl).
Defined.

(** X4: with a status filter every listed ride has that status; a filter
    value outside the five statuses gives the empty list, not an
    error. *)
Theorem status_filter_selects (user : identity) (s : string)
  (limit offset : nat) (db : Db) :
  s <> "" ->
  (forall r, In r (getRides user (Some s) limit offset db) ->
             status_text (r_status r) = s)
  /\ (status_of_text s = None -> getRides user (Some s) limit offset db = []).
Proof.
  intro Hs. apply String.eqb_neq in Hs. split.
  - intros r Hin. unfold getRides, limit_offset in Hin.
    apply In_firstn, In_skipn, order_by_desc_In, filter_In in Hin.
    destruct Hin as [_ H]. apply andb_true_iff in H. destruct H as [_ H].
    unfold status_filter in H. rewrite Hs in H. now apply String.eqb_eq.
  - intro Hnone. unfold getRides, limit_offset.
    rewrite filter_all_false; [simpl; now rewrite skipn_nil, firstn_nil|].
    intros r _. unfold status_filter. rewrite Hs.
    destruct (String.eqb (status_text (r_status r)) s) eqn:E;
      [|now rewrite andb_false_r].
    apply String.eqb_eq in E. subst s.
    rewrite status_of_text_status_text in Hnone. discriminate.
Qed.

Lemma status_filter_selects_witness :
  getRides admin (Some "cancelled") 20 0 sample_db = [].
Proof.
  apply (status_filter_selects admin "cancelled" 20 0 sample_db).
  - discriminate.
  - reflexivity.
Defined.

(** ** Booking *)

(** What a successful booking returns and stores. *)
Lemma postRide_ok_inv (M : MathLib) (user : identity) (b : create_ride_body)
  (now : Z) (db : Db) (ride : ride_row)
  (candidates : option (list driver_row)) :
  fst (postRide M user b now db) = Ok (ride, candidates) ->
  requireRole [Patient; Admin] user = Ok tt
  /\ createRideSchema now b = true
  /\ snd (postRide M user b now db) = insert_ride ride db
  /\ r_id ride = rides_id_seq db /\ r_user_id ride = id user
  /\ r_status ride = Pending
  /\ r_driver_id ride = None /\ r_vehicle_id ride = None
  /\ candidates
     = match vehicleType b with
       | Some vt => Some (availableDrivers (insert_ride ride db) vt)
       | None => None
       end.
Proof.
  unfold postRide.
  destruct (requireRole [Patient; Admin] user) as [[]|] eqn:Hrole;
    [|discriminate].
  destruct (createRideSchema now b) eqn:Hs; [|discriminate].
  destruct (startLocation b); [|discriminate].
  destruct (endLocation b); [|discriminate].
  destruct (rideDate b); [|discriminate].
  simpl. intro H. inversion H; subst. now repeat split.
Qed.

(** X5: the requester of a new booking fetches it back by the id of the
    answer, as long as the sequence value was not already a ride id. *)
Theorem booked_ride_is_fetched (M : MathLib) (user : identity)
  (b : create_ride_body) (now : Z) (db : Db) (ride : ride_row)
  (candidates : option (list driver_row)) :
  fst (postRide M user b now db) = Ok (ride, candidates) ->
  (forall r, In r (rides db) -> r_id r <> rides_id_seq db) ->
  r_user_id ride = id user /\ r_status ride = Pending
  /\ r_driver_id ride = None /\ r_vehicle_id ride = None
  /\ getRideById user (r_id ride) (snd (postRide M user b now db)) = Ok ride.
Proof.
  intros Hok Hfresh.
  destruct (postRide_ok_inv M user b now db ride candidates Hok)
    as [Hrole [_ [-> [Hid [Hu [Hst [Hd [Hv _]]]]]]]].
  repeat split; try assumption.
  unfold getRideById. simpl. rewrite filter_app.
  rewrite filter_all_false.
  - simpl. rewrite Z.eqb_refl. simpl.
    assert (Hf : role_filter (insert_ride ride db) user ride = true).
    { unfold role_filter. unfold requireRole in Hrole. simpl in Hrole.
      destruct (user_role user); try discriminate; [|reflexivity].
      rewrite Hu. apply String.eqb_refl. }
    now rewrite Hf.
  - intros x Hx. rewrite Hid.
    destruct (r_id x =? rides_id_seq db) eqn:E; [|reflexivity].
    apply Z.eqb_eq in E. now destruct (Hfresh x Hx).
Qed.

Lemma booked_ride_is_fetched_witness :
  exists ride,
    getRideById patient1 (r_id ride)
      (snd (postRide approx_math patient1 body_without_coordinates 40 sample_db))
    = Ok ride.
Proof.
  eexists.
  refine (proj2 (proj2 (proj2 (proj2
            (booked_ride_is_fetched approx_math patient1
               body_without_coordinates 40 sample_db _ None eq_refl _))))).
  intros r [<-|[<-|[]]]; discriminate.
Defined.

(** X6: the candidates a booking answers with: none without a vehicle type;
    otherwise at most five drivers, each available, of the requested
    type and with a user row, best rated first.  The booking itself
    carries no driver. *)
Theorem booking_candidates (M : MathLib) (user : identity)
  (b : create_ride_body) (now : Z) (db : Db) (ride : ride_row)
  (candidates : option (list driver_row)) :
  fst (postRide M user b now db) = Ok (ride, candidates) ->
  r_driver_id ride = None
  /\ match vehicleType b, candidates with
     | None, None => True
     | Some vt, Some l =>
         (List.length l <= 5)%nat
         /\ StronglySorted (newer_first d_rating) l
         /\ forall d, In d l ->
              In d (drivers db) /\ d_availability d = true
              /\ d_vehicle_type d = vt
              /\ exists u, In u (users db) /\ u_id u = d_user_id d
     | _, _ => False
     end.
Proof.
  intro Hok.
  destruct (postRide_ok_inv M user b now db ride candidates Hok)
    as [_ [_ [_ [_ [_ [_ [Hd [_ ->]]]]]]]].
  split; [exact Hd|].
  destruct (vehicleType b) as [vt|]; [|exact I].
  unfold availableDrivers. simpl users. simpl drivers.
  split; [apply firstn_le_length|].
  split; [apply sorted_firstn, order_by_desc_sorted|].
  intros d Hin. apply In_firstn, order_by_desc_In, filter_In in Hin.
  destruct Hin as [Hin H].
  apply andb_true_iff in H. destruct H as [H Hu].
  apply andb_true_iff in H. destruct H as [Ha Ht].
  apply String.eqb_eq in Ht. apply existsb_exists in Hu.
  destruct Hu as [u [Hu1 Hu2]]. apply String.eqb_eq in Hu2.
  repeat split; try assumption. now exists u.
Qed.

Lemma booking_candidates_witness :
  (List.length
     (availableDrivers
        (insert_ride
           (new_ride approx_math patient1 body_with_van "Home" "Clinic"
              1000 40 sample_db) sample_db) "van") <= 5)%nat.
Proof.
  exact (proj1 (proj2 (booking_candidates approx_math patient1 body_with_van
                         40 sample_db _ _ eq_refl))).
Defined.

(** ** Errors write nothing *)

Lemma with_rides_same (f : list ride_row -> list ride_row) (db : Db) :
  f (rides db) = rides db -> with_rides f db = db.
Proof.
  intro H. unfold with_rides. rewrite H. now destruct db.
Qed.

Lemma with_payments_same (f : list payment_row -> list payment_row) (db : Db) :
  f (payments db) = payments db -> with_payments f db = db.
Proof.
  intro H. unfold with_payments. rewrite H. now destruct db.
Qed.

Lemma with_drivers_same (f : list driver_row -> list driver_row) (db : Db) :
  f (drivers db) = drivers db -> with_drivers f (drivers_id_seq db) db = db.
Proof.
  intro H. unfold with_drivers. rewrite H. now destruct db.
Qed.

Lemma map_same {A : Type} (f : A -> A) (l : list A) :
  (forall x, In x l -> f x = x) -> map f l = l.
Proof.
  induction l as [|a l IH]; intro H; simpl; [reflexivity|].
  rewrite (H a (or_introl eq_refl)), IH; [reflexivity|].
  intros x Hx. apply H. now right.
Qed.

(** X7: whenever a handler of the rides routes answers with an error, the
    store is what it was: booking, generic update, assignment and
    tracking write only on success. *)
Theorem rides_errors_write_nothing :
  (forall M user b now db,
      is_ok (fst (postRide M user b now db)) = false ->
      snd (postRide M user b now db) = db)
  /\ (forall fallback user rideId b now db,
        is_ok (fst (patchRide fallback user rideId b now db)) = false ->
        snd (patchRide fallback user rideId b now db) = db)
  /\ (forall user rideId driverId now db,
        is_ok (fst (assignDriver user rideId driverId now db)) = false ->
        snd (assignDriver user rideId driverId now db) = db)
  /\ (forall user rideId lat lon speed heading now db,
        is_ok (fst (postTracking user rideId lat lon speed heading now db))
        = false ->
        snd (postTracking user rideId lat lon speed heading now db) = db).
Proof.
  repeat split.
  - intros M user b now db. unfold postRide.
    destruct (requireRole [Patient; Admin] user); [|reflexivity].
    destruct (createRideSchema now b); [|reflexivity].
    destruct (startLocation b); [|reflexivity].
    destruct (endLocation b); [|reflexivity].
    destruct (rideDate b); [discriminate | reflexivity].
  - intros fallback user rideId b now db. unfold patchRide.
    destruct (requireRole [Driver; Admin] user); [|reflexivity].
    destruct (updateRideSchema b); [|reflexivity].
    destruct (patch_permission db user rideId); [reflexivity|].
    destruct (int4_in (durationMinutes b)); [|discriminate].
    now destruct fallback.
  - intros user rideId driverId now db. unfold assignDriver.
    destruct (requireRole [Admin] user); [|reflexivity].
    destruct driverId as [dId|]; [|reflexivity].
    destruct (falsy_id (Some dId)); [reflexivity|].
    destruct (select_pending_ride db rideId); [reflexivity|].
    destruct (select_available_driver db dId) as [|[d v] ds];
      [reflexivity | discriminate].
  - intros user rideId lat lon speed heading now db. unfold postTracking.
    destruct (requireRole [Driver] user); [|reflexivity].
    destruct lat as [la|]; [|reflexivity].
    destruct lon as [lo|]; [|reflexivity].
    destruct (truthy (Some la) && truthy (Some lo)); [|reflexivity].
    destruct (select_driver_by_user db (id user)) as [|d ds]; [reflexivity|].
    match goal with
    | |- context [filter ?c (rides db)] => destruct (filter c (rides db))
    end; [reflexivity | discriminate].
Qed.

(** ** Generic update *)

(** X8: a generic update never moves a ride to another requester, driver or
    vehicle, never changes a ride's id, and leaves the rides with
    another id and the other tables as they were. *)
Theorem patchRide_frame (fallback : bool) (user : identity) (rideId : Z)
  (b : update_ride_body) (now : Z) (db : Db) :
  let db' := snd (patchRide fallback user rideId b now db) in
  map (fun r => (r_id r, r_user_id r, r_driver_id r, r_vehicle_id r)) (rides db')
  = map (fun r => (r_id r, r_user_id r, r_driver_id r, r_vehicle_id r)) (rides db)
  /\ (forall r, In r (rides db) -> r_id r <> rideId -> In r (rides db'))
  /\ users db' = users db /\ drivers db' = drivers db
  /\ vehicles db' = vehicles db /\ payments db' = payments db
  /\ ride_tracking db' = ride_tracking db.
Proof.
  cbv zeta. unfold patchRide.
  destruct (requireRole [Driver; Admin] user); [|now repeat split].
  destruct (updateRideSchema b) as [st|]; [|now repeat split].
  destruct (patch_permission db user rideId) as [|r0 rs]; [now repeat split|].
  destruct (int4_in (durationMinutes b));
    [destruct fallback; now repeat split|].
  simpl. split; [|split; [|now repeat split]].
  - unfold update_where_id. rewrite map_map. apply map_ext.
    intro r. now destruct (r_id r =? rideId).
  - intros r Hin Hne. now apply update_where_id_miss.
Qed.




(** ** Assignment, again *)

(** What a successful assignment tells about the request and the store. *)
Lemma assignDriver_ok_inv (user : identity) (R : Z) (driverId : option Z)
  (now : Z) (db : Db) :
  is_ok (fst (assignDriver user R driverId now db)) = true ->
  exists X,
    driverId = Some X /\ user_role user = Admin /\ X <> 0
    /\ select_pending_ride db R <> []
    /\ select_available_driver db X <> []
    /\ snd (assignDriver user R driverId now db)
       = with_rides (update_where_id R
                       (set_assignment X (current_vehicle db X) now)) db.
Proof.
  unfold assignDriver.
  destruct (requireRole [Admin] user) as [[]|] eqn:Hrole; [|discriminate].
  destruct driverId as [X|]; [|discriminate].
  destruct (falsy_id (Some X)) eqn:HX; [discriminate|].
  assert (Hadmin : user_role user = Admin).
  { unfold requireRole in Hrole. simpl in Hrole.
    destruct (user_role user); try discriminate. reflexivity. }
  assert (HX0 : X <> 0) by (simpl in HX; now apply Z.eqb_neq).
  intro Hok. exists X.
  destruct (assignDriver_cases user R X now db Hadmin HX0)
    as [[Hr H] | [[Hr [Hd H]] | [Hr [[d [rest Hd]] H]]]];
    unfold assignDriver in H; rewrite Hrole, HX in H.
  - rewrite Hr in Hok. discriminate.
  - destruct (select_pending_ride db R); [discriminate|].
    rewrite Hd in Hok. discriminate.
  - repeat split; try assumption; [now rewrite Hd|].
    destruct (select_pending_ride db R); [contradiction|].
    rewrite Hd. reflexivity.
Qed.

Lemma select_pending_after_assignment (R X now : Z) (v : option Z) (db : Db) :
  select_pending_ride
    (with_rides (update_where_id R (set_assignment X v now)) db) R = [].
Proof.
  unfold select_pending_ride. simpl. apply filter_all_false.
  intros r Hin. unfold update_where_id in Hin.
  apply in_map_iff in Hin. destruct Hin as [r0 [<- _]].
  destruct (r_id r0 =? R) eqn:E.
  - simpl. now rewrite andb_false_r.
  - now rewrite E.
Qed.

(** An assignment request for a ride that is not pending is refused and
    writes nothing. *)
Lemma assignDriver_not_pending (user : identity) (R : Z) (driverId : option Z)
  (now : Z) (db : Db) :
  select_pending_ride db R = [] ->
  is_ok (fst (assignDriver user R driverId now db)) = false
  /\ snd (assignDriver user R driverId now db) = db.
Proof.
  intro Hnone. unfold assignDriver.
  destruct (requireRole [Admin] user); [|now split].
  destruct driverId as [Y|]; [|now split].
  destruct (falsy_id (Some Y)); [now split|].
  now rewrite Hnone.
Qed.

Lemma serve_assigns_not_pending (R : Z) (calls : list assign_call) (db : Db) :
  select_pending_ride db R = [] ->
  List.length (fst (serve_assigns R calls db)) = List.length calls
  /\ Forall (fun a => is_ok a = false) (fst (serve_assigns R calls db))
  /\ snd (serve_assigns R calls db) = db.
Proof.
  intro Hnone. induction calls as [|c calls IH]; simpl.
  - now repeat split.
  - destruct (assignDriver_not_pending (a_caller c) R (a_driverId c) (a_now c)
                db Hnone) as [Hrefused Hsame].
    destruct (assignDriver (a_caller c) R (a_driverId c) (a_now c) db)
      as [answer db1].
    simpl in Hrefused, Hsame. subst db1.
    destruct (serve_assigns R calls db) as [answers db2].
    simpl in *. destruct IH as [Hlen [Hall Hdb]].
    split; [now rewrite Hlen|]. split; [now constructor | exact Hdb].
Qed.

(** X10: once a ride is assigned, a run of further assignment requests for
    it, by any callers and for any drivers, served one after the other
    with no other request in between, is refused request by request and
    leaves the store as the assignment left it. *)
Theorem assigned_ride_is_not_reassigned (user : identity) (R : Z)
  (driverId : option Z) (now : Z) (db : Db) (calls : list assign_call) :
  is_ok (fst (assignDriver user R driverId now db)) = true ->
  let db' := snd (assignDriver user R driverId now db) in
  List.length (fst (serve_assigns R calls db')) = List.length calls
  /\ Forall (fun a => is_ok a = false) (fst (serve_assigns R calls db'))
  /\ snd (serve_assigns R calls db') = db'.
Proof.
  intros Hok db'. apply serve_assigns_not_pending.
  destruct (assignDriver_ok_inv user R driverId now db Hok)
    as [X [_ [_ [_ [_ [_ Hdb]]]]]].
  unfold db'. rewrite Hdb. apply select_pending_after_assignment.
Qed.

(** After driver 3 is assigned to ride 2 of the sample store, the
    admin's request for driver 1 and a second one for driver 3 are both
    refused. *)
Lemma assigned_ride_is_not_reassigned_witness :
  Forall (fun a => is_ok a = false)
    (fst (serve_assigns 2
            [ {| a_caller := admin; a_driverId := Some 1; a_now := 31 |};
              {| a_caller := admin; a_driverId := Some 3; a_now := 32 |} ]
            (snd (assignDriver admin 2 (Some 3) 30 sample_db)))).
Proof.
  exact (proj1 (proj2 (assigned_ride_is_not_reassigned admin 2 (Some 3) 30
                         sample_db
                         [ {| a_caller := admin; a_driverId := Some 1;
                              a_now := 31 |};
                           {| a_caller := admin; a_driverId := Some 3;
                              a_now := 32 |} ]
                         eq_refl))).
Defined.

(** X11: an assignment does not use up the driver: after a driver is
    assigned to one ride, the same driver is assigned to any other
    pending ride as well. *)
Theorem driver_assigned_to_second_ride (user : identity) (R1 R2 X now now' : Z)
  (db : Db) :
  is_ok (fst (assignDriver user R1 (Some X) now db)) = true ->
  R1 <> R2 ->
  (exists r, In r (rides db) /\ r_id r = R2 /\ r_status r = Pending) ->
  is_ok (fst (assignDriver user R2 (Some X) now'
                (snd (assignDriver user R1 (Some X) now db)))) = true.
Proof.
  intros Hok Hne [r [Hin [Hid Hst]]].
  destruct (assignDriver_ok_inv user R1 (Some X) now db Hok)
    as [X' [HX' [Hadmin [HX0 [_ [Hav Hdb]]]]]].
  inversion HX'; subst X'. rewrite Hdb.
  set (db' := with_rides _ db).
  destruct (assignDriver_cases user R2 X now' db' Hadmin HX0)
    as [[Hr _] | [[_ [Hd _]] | [_ [_ ->]]]]; [| |reflexivity].
  - exfalso.
    assert (Hp : exists x rest, select_pending_ride db' R2 = x :: rest).
    { apply select_pending_ride_spec. exists r. split; [|now split].
      unfold db'. simpl. apply update_where_id_miss; [exact Hin|]. congruence. }
    destruct Hp as [x [rest Hp]]. congruence.
  - exfalso. apply Hav. exact Hd.
Qed.

Lemma driver_assigned_to_second_ride_witness :
  is_ok (fst (assignDriver admin 2 (Some 3) 31
                (snd (assignDriver admin 3 (Some 3) 30 booked_twice_db))))
  = true.
Proof.
  apply (driver_assigned_to_second_ride admin 3 2 3 30 31 booked_twice_db).
  - reflexivity.
  - discriminate.
  - eexists. split; [right; left; reflexivity|]. now split.
Defined.

(** ** Driver availability *)

Lemma NoDup_map_inj {A B : Type} (f : A -> B) (l : list A) (a b : A) :
  NoDup (map f l) -> In a l -> In b l -> f a = f b -> a = b.
Proof.
  induction l as [|x l IH]; simpl; intros Hnd Ha Hb Hf; [destruct Ha|].
  inversion Hnd as [|y ys Hnotin Hnd']; subst.
  destruct Ha as [Ha|Ha], Hb as [Hb|Hb].
  - congruence.
  - exfalso. apply Hnotin. subst x. rewrite Hf. now apply in_map.
  - exfalso. apply Hnotin. subst x. rewrite <- Hf. now apply in_map.
  - now apply IH.
Qed.

(** The availability update touches nothing but the availability of the
    caller's driver rows, and an error answer leaves the store as it
    was. *)
Theorem patchAvailability_frame (user : identity) (availability : option bool)
  (db : Db) :
  let db' := snd (patchAvailability user availability db) in
  map (fun d => (d_id d, d_user_id d, d_license_number d, d_vehicle_type d,
                 d_rating d)) (drivers db')
  = map (fun d => (d_id d, d_user_id d, d_license_number d, d_vehicle_type d,
                   d_rating d)) (drivers db)
  /\ (forall d, In d (drivers db) -> d_user_id d <> id user ->
                In d (drivers db'))
  /\ rides db' = rides db /\ users db' = users db
  /\ vehicles db' = vehicles db
  /\ (is_ok (fst (patchAvailability user availability db)) = false -> db' = db).
Proof.
  cbv zeta. unfold patchAvailability.
  destruct (requireRole [Driver; Admin] user); [|now repeat split].
  destruct availability as [av|]; [|now repeat split].
  set (g := fun d => if String.eqb (d_user_id d) (id user)
                     then set_availability av d else d).
  set (db' := with_drivers (map g) (drivers_id_seq db) db).
  assert (Hframe :
            map (fun d => (d_id d, d_user_id d, d_license_number d,
                           d_vehicle_type d, d_rating d)) (drivers db')
            = map (fun d => (d_id d, d_user_id d, d_license_number d,
                             d_vehicle_type d, d_rating d)) (drivers db)
            /\ (forall d, In d (drivers db) -> d_user_id d <> id user ->
                          In d (drivers db'))).
  { split.
    - simpl. rewrite map_map. apply map_ext. intro d. unfold g.
      now destruct (String.eqb (d_user_id d) (id user)).
    - intros d Hin Hne. simpl. apply in_map_iff. exists d. split; [|exact Hin].
      unfold g. apply String.eqb_neq in Hne. now rewrite Hne. }
  destruct Hframe as [H1 H2].
  destruct (filter (fun d => String.eqb (d_user_id d) (id user)) (drivers db'))
    as [|d ds] eqn:E; simpl; repeat split; try assumption; try discriminate.
  intros _. unfold db'. apply with_drivers_same. apply map_same.
  intros d Hin. unfold g.
  destruct (String.eqb (d_user_id d) (id user)) eqn:Eu; [|reflexivity].
  exfalso.
  assert (Hx : In (g d) (filter (fun d0 => String.eqb (d_user_id d0) (id user))
                           (drivers db'))).
  { apply filter_In. split.
    - simpl. now apply in_map.
    - unfold g. now rewrite Eu. }
  rewrite E in Hx. destruct Hx.
Qed.

(** X12: after a driver has switched availability off, no assignment request
    naming that driver row is served (driver ids being unique). *)
Theorem unavailable_driver_is_not_assigned (user caller : identity)
  (d : driver_row) (R now : Z) (db : Db) :
  fst (patchAvailability user (Some false) db) = Ok d ->
  NoDup (map d_id (drivers db)) ->
  let db' := snd (patchAvailability user (Some false) db) in
  d_user_id d = id user /\ d_availability d = false
  /\ is_ok (fst (assignDriver caller R (Some (d_id d)) now db')) = false
  /\ snd (assignDriver caller R (Some (d_id d)) now db') = db'.
Proof.
  unfold patchAvailability.
  destruct (requireRole [Driver; Admin] user); [|discriminate].
  set (g := fun d => if String.eqb (d_user_id d) (id user)
                     then set_availability false d else d).
  set (db' := with_drivers (map g) (drivers_id_seq db) db).
  destruct (filter (fun d => String.eqb (d_user_id d) (id user)) (drivers db'))
    as [|x xs] eqn:E; [discriminate|].
  simpl. intros Hd Hnd. inversion Hd; subst x. clear Hd.
  assert (Hin : In d (drivers db') /\ String.eqb (d_user_id d) (id user) = true).
  { apply (filter_In (fun d0 => String.eqb (d_user_id d0) (id user))).
    rewrite E. now left. }
  destruct Hin as [Hin Hu].
  simpl in Hin. apply in_map_iff in Hin. destruct Hin as [d0 [Hg Hin0]].
  assert (Hu0 : String.eqb (d_user_id d0) (id user) = true).
  { subst d. unfold g in Hu. destruct (String.eqb (d_user_id d0) (id user)) eqn:E0;
      [reflexivity | now rewrite E0 in Hu]. }
  assert (Hd : d = set_availability false d0).
  { subst d. unfold g. now rewrite Hu0. }
  assert (Hnone : select_available_driver db' (d_id d) = []).
  { unfold select_available_driver. rewrite filter_all_false; [reflexivity|].
    intros y Hy. simpl in Hy. apply in_map_iff in Hy.
    destruct Hy as [y0 [Hy Hy0]].
    destruct (d_id y =? d_id d) eqn:Eid; [|reflexivity]. simpl.
    apply Z.eqb_eq in Eid.
    assert (Hsame : y0 = d0).
    { apply (NoDup_map_inj d_id (drivers db)); try assumption.
      rewrite Hd in Eid. simpl in Eid. rewrite <- Eid. subst y. unfold g.
      now destruct (String.eqb (d_user_id y0) (id user)). }
    subst y0. subst y. unfold g. now rewrite Hu0. }
  split; [now apply String.eqb_eq|]. split; [now rewrite Hd|].
  unfold assignDriver.
  destruct (requireRole [Admin] caller); [|now split].
  destruct (falsy_id (Some (d_id d))); [now split|].
  destruct (select_pending_ride db' R); [now split|].
  now rewrite Hnone.
Qed.

Lemma unavailable_driver_is_not_assigned_witness :
  is_ok (fst (assignDriver admin 2 (Some 1) 60
                (snd (patchAvailability driver1 (Some false) sample_db))))
  = false.
Proof.
  refine (proj1 (proj2 (proj2
            (unavailable_driver_is_not_assigned driver1 admin _ 2 60 sample_db
               eq_refl _)))).
  simpl. repeat constructor; simpl; intuition discriminate.
Defined.

(** ** Tracking points *)

Lemma order_by_desc_newest_last {A : Type} (key : A -> Z) (l : list A) (x : A) :
  (forall y, In y l -> key y < key x) ->
  order_by_desc key (l ++ [x]) = x :: order_by_desc key l.
Proof.
  induction l as [|a l IH]; intro H; [reflexivity|].
  simpl. rewrite IH by (intros y Hy; apply H; now right).
  simpl. assert (Ha : key a < key x) by (apply H; now left).
  apply Z.leb_gt in Ha. now rewrite Ha.
Qed.

(** X13: a tracking point whose latitude or longitude is 0 is rejected as if
    the coordinate were missing, also for the assigned driver. *)
Theorem tracking_point_with_zero_is_rejected (user : identity) (rideId : Z)
  (lat lon : float) (speed heading : option float) (now : Z) (db : Db) :
  user_role user = Driver ->
  PrimFloat.eqb lat 0%float = true \/ PrimFloat.eqb lon 0%float = true ->
  postTracking user rideId (Some lat) (Some lon) speed heading now db
  = (AppError "Latitude and longitude are required" 400, db).
Proof.
  intros Hrole Hzero. unfold postTracking, requireRole. rewrite Hrole.
  simpl existsb. cbv iota.
  destruct Hzero as [H|H]; rewrite (truthy_zero _ H), ?andb_false_r;
    reflexivity.
Qed.

Lemma tracking_point_with_zero_is_rejected_witness :
  postTracking driver1 1 (Some 0%float) (Some (-75)%float) None None 70 sample_db
  = (AppError "Latitude and longitude are required" 400, sample_db).
Proof.
  apply tracking_point_with_zero_is_rejected; [reflexivity|].
  left. reflexivity.
Defined.

(** X14: for a driver and two non-zero coordinates, a tracking point is
    accepted if and only if the caller has a driver row and the ride is
    assigned to it.  An accepted point is appended as the last row of
    the table, with the coordinates and the time of the request, and
    nothing else is written; a refused one is answered 404 and writes
    nothing. *)
Theorem tracking_point_accepted_iff (user : identity) (rideId : Z)
  (lat lon : float) (speed heading : option float) (now : Z) (db : Db) :
  user_role user = Driver ->
  truthy (Some lat) = true -> truthy (Some lon) = true ->
  let out := postTracking user rideId (Some lat) (Some lon) speed heading
               now db in
  (is_ok (fst out) = true
   <-> exists d rest,
         select_driver_by_user db (id user) = d :: rest
         /\ exists r, In r (rides db) /\ r_id r = rideId
                      /\ r_driver_id r = Some (d_id d))
  /\ (is_ok (fst out) = true ->
      ride_tracking (snd out)
      = (ride_tracking db
         ++ [ {| t_id := ride_tracking_id_seq db; t_ride_id := rideId;
                 t_latitude := lat; t_longitude := lon; t_timestamp := now;
                 t_speed := speed; t_heading := heading |} ])%list
      /\ rides (snd out) = rides db /\ drivers (snd out) = drivers db
      /\ users (snd out) = users db /\ payments (snd out) = payments db)
  /\ (is_ok (fst out) = false ->
      statusCode_of (fst out) = Some 404 /\ snd out = db).
Proof.
  intros Hrole Hlat Hlon. cbv zeta. unfold postTracking, requireRole.
  rewrite Hrole. simpl existsb. cbv iota. rewrite Hlat, Hlon. simpl andb.
  cbv iota.
  destruct (select_driver_by_user db (id user)) as [|d ds] eqn:Ed; simpl.
  - split; [|split; [discriminate | now split]].
    split; [discriminate|]. intros [d' [rest' [H _]]]. discriminate.
  - set (f := fun r => (r_id r =? rideId) && col_eqb (r_driver_id r) (d_id d)).
    assert (Hf : forall r, f r = true
                           <-> r_id r = rideId /\ r_driver_id r = Some (d_id d)).
    { intro r. unfold f, col_eqb. rewrite andb_true_iff, Z.eqb_eq.
      destruct (r_driver_id r) as [c|].
      - rewrite Z.eqb_eq. split; intros [H1 H2]; split; congruence.
      - split; intros [_ H]; discriminate. }
    destruct (filter f (rides db)) as [|x xs] eqn:E; simpl.
    + split; [|split; [discriminate | now split]].
      split; [discriminate|].
      intros [d' [rest' [H [r [Hin [H1 H2]]]]]]. inversion H; subst d' rest'.
      assert (Hx : In r (filter f (rides db))).
      { apply filter_In. split; [exact Hin|]. now apply Hf. }
      rewrite E in Hx. destruct Hx.
    + split; [|split; [now repeat split | discriminate]].
      split; [|reflexivity]. intros _. exists d, ds. split; [reflexivity|].
      assert (Hx : In x (rides db) /\ f x = true).
      { apply filter_In. rewrite E. now left. }
      destruct Hx as [Hin Hfx]. apply Hf in Hfx. exists x. tauto.
Qed.

Lemma tracking_point_accepted_iff_witness :
  is_ok (fst (postTracking driver1 1 (Some 40.5%float) (Some (-75)%float)
                None None 70 sample_db)) = true
  <-> exists d rest,
        select_driver_by_user sample_db (id driver1) = d :: rest
        /\ exists r, In r (rides sample_db) /\ r_id r = 1
                     /\ r_driver_id r = Some (d_id d).
Proof.
  exact (proj1 (tracking_point_accepted_iff driver1 1 40.5%float (-75)%float
                  None None 70 sample_db eq_refl eq_refl eq_refl)).
Defined.

(** X15: a driver who has just posted a point, at a time later than every
    earlier point of the ride, reads it back as the first row of the
    ride's tracking. *)
Theorem posted_point_is_read_first (user : identity) (rideId : Z)
  (lat lon : float) (speed heading : option float) (now : Z) (db : Db) :
  is_ok (fst (postTracking user rideId (Some lat) (Some lon) speed heading
                now db)) = true ->
  (forall t, In t (ride_tracking db) -> t_ride_id t = rideId ->
             t_timestamp t < now) ->
  exists rows,
    getTracking user rideId
      (snd (postTracking user rideId (Some lat) (Some lon) speed heading now db))
    = Ok ({| t_id := ride_tracking_id_seq db; t_ride_id := rideId;
             t_latitude := lat; t_longitude := lon; t_timestamp := now;
             t_speed := speed; t_heading := heading |} :: rows).
Proof.
  unfold postTracking.
  destruct (requireRole [Driver] user) as [[]|] eqn:Hrole; [|discriminate].
  assert (Hdriver : user_role user = Driver).
  { unfold requireRole in Hrole. simpl in Hrole.
    destruct (user_role user); try discriminate. reflexivity. }
  destruct (truthy (Some lat) && truthy (Some lon)); [|discriminate].
  destruct (select_driver_by_user db (id user)) as [|d ds] eqn:Ed;
    [discriminate|].
  set (f := fun r => (r_id r =? rideId) && col_eqb (r_driver_id r) (d_id d)).
  destruct (filter f (rides db)) as [|x xs] eqn:E; [discriminate|].
  simpl. intros _ Hnew.
  assert (Hx : In x (rides db) /\ f x = true).
  { apply filter_In. rewrite E. now left. }
  destruct Hx as [Hin Hfx]. unfold f in Hfx. apply andb_true_iff in Hfx.
  destruct Hfx as [Hid Hdr].
  unfold getTracking.
  set (point := {| t_id := ride_tracking_id_seq db; t_ride_id := rideId;
                   t_latitude := lat; t_longitude := lon; t_timestamp := now;
                   t_speed := speed; t_heading := heading |}).
  assert (Hperm : exists y ys,
             tracking_permission (insert_tracking point db) user rideId
             = y :: ys).
  { apply filter_cons_witness. exists x. split; [exact Hin|].
    rewrite Hid, Hdriver. simpl. unfold select_driver_by_user. simpl drivers.
    unfold select_driver_by_user in Ed. rewrite Ed, Hdr. apply orb_true_r. }
  destruct Hperm as [y [ys ->]].
  unfold select_tracking. simpl ride_tracking. rewrite filter_app. simpl.
  rewrite Z.eqb_refl.
  rewrite (order_by_desc_newest_last t_timestamp _ point).
  - simpl. eexists. reflexivity.
  - intros t Ht.
    apply (filter_In (fun t0 => t_ride_id t0 =? rideId)) in Ht.
    destruct Ht as [Ht1 Ht2]. apply Z.eqb_eq in Ht2. now apply Hnew.
Qed.

Lemma posted_point_is_read_first_witness :
  exists rows,
    getTracking driver1 1
      (snd (postTracking driver1 1 (Some 40.5%float) (Some (-75)%float)
              None None 70 busy_db))
    = Ok ({| t_id := 61; t_ride_id := 1;
             t_latitude := 40.5%float; t_longitude := (-75)%float;
             t_timestamp := 70; t_speed := None; t_heading := None |} :: rows).
Proof.
  apply (posted_point_is_read_first driver1 1 40.5%float (-75)%float None None
           70 busy_db eq_refl).
  intros t Hin _. change (In t (map sample_point (seq 1 60))) in Hin.
  apply in_map_iff in Hin.
  destruct Hin as [n [<- Hn]]. apply in_seq in Hn.
  change (Z.of_nat n < 70). lia.
Defined.

(** X16: who may read a ride's tracking: an admin, the requester of the
    ride, and a driver whose driver row the ride is assigned to; anyone
    else is answered 403.  A driver identity without a driver row reads
    only rides it requested. *)
Theorem tracking_read_permission (user : identity) (rideId : Z) (db : Db) :
  (is_ok (getTracking user rideId db) = true
   <-> user_role user = Admin
       \/ exists r, In r (rides db) /\ r_id r = rideId
            /\ (r_user_id r = id user
                \/ (user_role user = Driver
                    /\ exists d rest,
                         select_driver_by_user db (id user) = d :: rest
                         /\ r_driver_id r = Some (d_id d))))
  /\ (is_ok (getTracking user rideId db) = false ->
      getTracking user rideId db
      = AppError "No permission to view this ride tracking" 403).
Proof.
  unfold getTracking.
  assert (Hp : (exists y ys, tracking_permission db user rideId = y :: ys)
               <-> exists r, In r (rides db) /\ r_id r = rideId
                    /\ (r_user_id r = id user
                        \/ (user_role user = Driver
                            /\ exists d rest,
                                 select_driver_by_user db (id user) = d :: rest
                                 /\ r_driver_id r = Some (d_id d)))).
  { unfold tracking_permission. rewrite filter_cons_witness.
    split; intros [r [Hin H]]; exists r; (split; [exact Hin|]).
    - apply andb_true_iff in H. destruct H as [H1 H2].
      apply Z.eqb_eq in H1. split; [exact H1|].
      apply orb_true_iff in H2. destruct H2 as [H2|H2].
      + left. now apply String.eqb_eq.
      + right. destruct (user_role user); try discriminate.
        split; [reflexivity|].
        destruct (select_driver_by_user db (id user)) as [|d ds];
          [discriminate|].
        exists d, ds. split; [reflexivity|]. unfold col_eqb in H2.
        destruct (r_driver_id r) as [c|]; [|discriminate].
        apply Z.eqb_eq in H2. now subst.
    - destruct H as [H1 H2]. rewrite H1, Z.eqb_refl. simpl.
      destruct H2 as [H2|[Hrole [d [rest [Hd Hr]]]]].
      + rewrite H2, String.eqb_refl. reflexivity.
      + rewrite Hrole, Hd, Hr. simpl. rewrite Z.eqb_refl. apply orb_true_r. }
  destruct (tracking_permission db user rideId) as [|y ys] eqn:E.
  - destruct (role_eqb (user_role user) Admin) eqn:Ea; simpl.
    + split; [|discriminate]. split; [|reflexivity]. intros _. left.
      now destruct (user_role user).
    + split; [|reflexivity]. split; [discriminate|].
      intros [Hadmin|Hr].
      * rewrite Hadmin in Ea. discriminate.
      * apply Hp in Hr. destruct Hr as [y [ys H]]. discriminate.
  - simpl. split; [|discriminate]. split; [|reflexivity]. intros _. right.
    apply Hp. now exists y, ys.
Qed.

(** ** Payments *)

(** X17: the confirmation endpoint answers success or 500 and nothing else:
    the 403 and 404 raised inside its [try] leave as "Failed to confirm
    payment".  Every such failure leaves the store as it was, and an
    intent that cannot be retrieved or belongs to another user is
    always a failure. *)
Theorem confirmPayment_failures (retrieve : string -> option payment_intent)
  (user : identity) (paymentIntentId : string) (now : Z) (db : Db) :
  let out := confirmPayment retrieve user paymentIntentId now db in
  (is_ok (fst out) = false ->
   fst out = AppError "Failed to confirm payment" 500 /\ snd out = db)
  /\ (retrieve paymentIntentId = None
      \/ (exists intent, retrieve paymentIntentId = Some intent
                         /\ metadata_userId intent <> id user) ->
      is_ok (fst out) = false).
Proof.
  cbv zeta. rewrite confirmPayment_refused. now repeat split.
Qed.

(** X19: the webhook writes nothing but the status and date of the payments
    that carry the event's intent id: the other columns of every
    payment, the payments of other intents, and the other tables stay,
    and an unverified event writes nothing at all. *)
Theorem webhook_frame (event : option stripe_event) (now : Z) (db : Db) :
  let db' := snd (webhook event now db) in
  map (fun p => (p_id p, p_ride_id p, p_user_id p, p_amount p, p_method p,
                 p_stripe_payment_intent_id p, p_created_at p)) (payments db')
  = map (fun p => (p_id p, p_ride_id p, p_user_id p, p_amount p, p_method p,
                   p_stripe_payment_intent_id p, p_created_at p)) (payments db)
  /\ (forall e p, event = Some e -> In p (payments db) ->
        p_stripe_payment_intent_id p <> object_id e -> In p (payments db'))
  /\ users db' = users db /\ drivers db' = drivers db
  /\ vehicles db' = vehicles db /\ rides db' = rides db
  /\ ride_tracking db' = ride_tracking db
  /\ (event = None -> db' = db).
Proof.
  cbv zeta. unfold webhook. destruct event as [e|]; [|now repeat split].
  assert (Hkeep : forall st d u,
             map (fun p => (p_id p, p_ride_id p, p_user_id p, p_amount p,
                            p_method p, p_stripe_payment_intent_id p,
                            p_created_at p))
               (update_payments_where
                  (fun p => String.eqb (p_stripe_payment_intent_id p) (object_id e))
                  (set_payment st d u) (payments db))
             = map (fun p => (p_id p, p_ride_id p, p_user_id p, p_amount p,
                              p_method p, p_stripe_payment_intent_id p,
                              p_created_at p)) (payments db)).
  { intros st d u. unfold update_payments_where. rewrite map_map.
    apply map_ext. intro p. now destruct (String.eqb _ _). }
  assert (Hother : forall st d u e' p,
             Some e = Some e' -> In p (payments db) ->
             p_stripe_payment_intent_id p <> object_id e' ->
             In p (update_payments_where
                     (fun p => String.eqb (p_stripe_payment_intent_id p) (object_id e))
                     (set_payment st d u) (payments db))).
  { intros st d u e' p He Hin Hne. inversion He; subst e'.
    unfold update_payments_where. apply in_map_iff. exists p.
    split; [|exact Hin]. apply String.eqb_neq in Hne. now rewrite Hne. }
  destruct (String.eqb (event_type e) "payment_intent.succeeded").
  - simpl. repeat split; try discriminate; [apply Hkeep | apply Hother].
  - destruct (String.eqb (event_type e) "payment_intent.payment_failed").
    + simpl. repeat split; try discriminate; [apply Hkeep | apply Hother].
    + simpl. repeat split; try discriminate. now intros.
Qed.

(** X20: webhook events are applied in the order they arrive and the last one
    wins: a failed event after a succeeded one leaves the payment failed
    (dated by the succeeded event), a succeeded event after a failed one
    leaves it completed. *)
Theorem webhook_last_event_wins (intentId : string) (t1 t2 : Z) (db : Db) :
  let succeeded := Some {| event_type := "payment_intent.succeeded";
                           object_id := intentId |} in
  let failed := Some {| event_type := "payment_intent.payment_failed";
                        object_id := intentId |} in
  (forall p, In p (payments (snd (webhook failed t2 (snd (webhook succeeded t1 db))))) ->
             p_stripe_payment_intent_id p = intentId ->
             p_status p = PayFailed /\ p_payment_date p = t1)
  /\ (forall p, In p (payments (snd (webhook succeeded t2 (snd (webhook failed t1 db))))) ->
                p_stripe_payment_intent_id p = intentId ->
                p_status p = PayCompleted /\ p_payment_date p = t2).
Proof.
  cbv zeta. unfold webhook. simpl. unfold update_payments_where.
  split; intros p Hin Hid; rewrite map_map in Hin; apply in_map_iff in Hin;
    destruct Hin as [q [Hq _]];
    destruct (String.eqb (p_stripe_payment_intent_id q) intentId) eqn:E;
    simpl in Hq; rewrite ?E in Hq; subst p; simpl in *;
    try (now split); rewrite Hid, String.eqb_refl in E; discriminate.
Qed.

(** What a created intent tells about the request and the store. *)
Lemma createIntent_ok_inv (round : float -> float)
  (create : float -> Z -> string -> option (string * string))
  (user : identity) (rideId : option Z) (amount : option float)
  (newId now : Z) (db : Db) :
  is_ok (fst (createIntent round create user rideId amount newId now db)) = true ->
  exists rid a r intentId secret,
    rideId = Some rid /\ amount = Some a /\ rid <> 0 /\ truthy (Some a) = true
    /\ In r (rides db) /\ r_id r = rid /\ r_user_id r = id user
    /\ createIntent round create user rideId amount newId now db
       = (Ok (secret, intentId),
          insert_payment
            {| p_id := newId; p_ride_id := Some rid; p_user_id := id user;
               p_amount := a; p_method := "credit_card";
               p_status := PayPending;
               p_stripe_payment_intent_id := intentId;
               p_payment_date := now; p_created_at := now;
               p_updated_at := now |} db).
Proof.
  unfold createIntent.
  destruct rideId as [rid|]; [|discriminate].
  destruct amount as [a|]; [|discriminate].
  destruct (falsy_id (Some rid)) eqn:Hr; [discriminate|].
  destruct (truthy (Some a)) eqn:Ha; [|discriminate]. simpl orb. cbv iota.
  set (f := fun r => (r_id r =? rid) && String.eqb (r_user_id r) (id user)).
  destruct (filter f (rides db)) as [|r rs] eqn:E; [discriminate|].
  destruct (create (round (a * 100)%float) rid (id user)) as [[intentId secret]|];
    [|discriminate].
  intros _.
  assert (Hx : In r (rides db) /\ f r = true).
  { apply filter_In. rewrite E. now left. }
  destruct Hx as [Hin Hf]. unfold f in Hf. apply andb_true_iff in Hf.
  destruct Hf as [H1 H2]. apply Z.eqb_eq in H1. apply String.eqb_eq in H2.
  exists rid, a, r, intentId, secret. repeat split; try assumption.
  simpl in Hr. now apply Z.eqb_neq.
Qed.

(** X21: a payment intent is opened only for a ride the caller requested and
    a non-zero amount; it adds one pending payment linked to that ride
    and that caller and writes nothing else.  A refusal (400 for a
    missing or zero ride id or amount, 404 for a ride of someone else,
    500 when the provider call fails) writes nothing. *)
Theorem createIntent_effects (round : float -> float)
  (create : float -> Z -> string -> option (string * string))
  (user : identity) (rideId : option Z) (amount : option float)
  (newId now : Z) (db : Db) :
  let out := createIntent round create user rideId amount newId now db in
  (is_ok (fst out) = false -> snd out = db)
  /\ (is_ok (fst out) = true ->
      exists rid r p,
        rideId = Some rid /\ In r (rides db) /\ r_id r = rid
        /\ r_user_id r = id user
        /\ payments (snd out) = (payments db ++ [p])%list
        /\ p_status p = PayPending /\ p_ride_id p = Some rid
        /\ p_user_id p = id user /\ Some (p_amount p) = amount
        /\ rides (snd out) = rides db /\ users (snd out) = users db)
  /\ ((exists a, amount = Some a /\ PrimFloat.eqb a 0%float = true) ->
      fst out = AppError "Ride ID and amount are required" 400)
  /\ ((exists rid, rideId = Some rid /\ rid <> 0
                   /\ forall r, In r (rides db) -> r_id r = rid ->
                                r_user_id r <> id user) ->
      truthy amount = true ->
      fst out = AppError "Ride not found" 404).
Proof.
  cbv zeta. split; [|split; [|split]].
  - unfold createIntent.
    destruct rideId as [rid|]; [|reflexivity].
    destruct amount as [a|]; [|reflexivity].
    destruct (falsy_id (Some rid) || negb (truthy (Some a))); [reflexivity|].
    match goal with
    | |- context [filter ?c (rides db)] => destruct (filter c (rides db))
    end; [reflexivity|].
    destruct (create _ rid (id user)) as [[i s]|]; [discriminate | reflexivity].
  - intro Hok.
    destruct (createIntent_ok_inv round create user rideId amount newId now db Hok)
      as [rid [a [r [intentId [secret [-> [-> [_ [_ [Hin [Hid [Hu ->]]]]]]]]]]]].
    exists rid, r. eexists. repeat split; try eassumption; reflexivity.
  - intros [a [-> Hz]]. unfold createIntent.
    destruct rideId as [rid|]; [|reflexivity].
    rewrite (truthy_zero a Hz). now rewrite orb_true_r.
  - intros [rid [-> [Hrid Hforeign]]] Hamount. unfold createIntent.
    destruct amount as [a|]; [|discriminate].
    rewrite (falsy_id_nonzero rid Hrid), Hamount. simpl orb. cbv iota.
    rewrite filter_all_false; [reflexivity|].
    intros r Hin. destruct (r_id r =? rid) eqn:E; [|reflexivity].
    apply Z.eqb_eq in E. simpl.
    apply String.eqb_neq. now apply Hforeign.
Qed.

(** X23: the payment history holds at most [limit] rows, newest payment
    first, and each row is one of the caller's own payments with the
    ride it is linked to. *)
Theorem history_shows_own_payments (user : identity) (limit offset : nat)
  (db : Db) :
  (List.length (paymentHistory user limit offset db) <= limit)%nat
  /\ StronglySorted (newer_first (fun pr => p_created_at (fst pr)))
       (paymentHistory user limit offset db)
  /\ forall p r, In (p, r) (paymentHistory user limit offset db) ->
       In p (payments db) /\ p_user_id p = id user
       /\ In r (rides db) /\ p_ride_id p = Some (r_id r).
Proof.
  unfold paymentHistory, limit_offset. split; [apply firstn_le_length|]. split.
  - apply sorted_firstn.
    set (l := order_by_desc _ _).
    assert (Hs : StronglySorted (newer_first (fun pr => p_created_at (fst pr))) l)
      by apply order_by_desc_sorted.
    clearbody l. revert l Hs. induction offset as [|n IH]; intros l Hs;
      [exact Hs|].
    destruct l as [|x l]; [constructor|]. simpl. apply IH.
    now inversion Hs.
  - intros p r Hin.
    apply In_firstn, In_skipn, order_by_desc_In, in_flat_map in Hin.
    destruct Hin as [q [Hq Hin]].
    destruct (String.eqb (p_user_id q) (id user)) eqn:Eu; [|destruct Hin].
    apply in_map_iff in Hin. destruct Hin as [r' [Hpair Hr]].
    inversion Hpair; subst q r'.
    apply (filter_In (fun r0 => col_eqb (p_ride_id p) (r_id r0))) in Hr.
    destruct Hr as [Hr Hc]. apply String.eqb_eq in Eu.
    repeat split; try assumption.
    unfold col_eqb in Hc. destruct (p_ride_id p) as [c|]; [|discriminate].
    apply Z.eqb_eq in Hc. now subst.
Qed.

(** ** Registration and login *)

(** X24: on the tables of [initDatabase] no registration is served.  A body
    that passes the schema, with an email that is not registered yet, is
    answered 500 "Registration failed" and nothing is written, under
    either [query] wrapper: the [INSERT] names [users.password].  (With
    the wrapper that simulates results this needs the generated id not
    to be a user id already, since the handler then looks the user up by
    that id.) *)
Theorem registration_is_refused (E : Env) (L : Libs) (b : register_body)
  (v : register_value) (userId hashedPassword : string) (now : Z) (db : Db) :
  registerSchema L b = Some v ->
  (forall u, In u (users db) -> u_email u <> email v) ->
  in_memory_fallback E = false
  \/ (forall u, In u (users db) -> u_id u <> userId) ->
  register E L b userId hashedPassword now db
  = (AppError "Registration failed" 500, db).
Proof.
  intros Hv Hmail Hid. unfold register. rewrite Hv.
  unfold query at 1. unfold pg_exec, select_user_by_email. simpl.
  rewrite filter_all_false.
  2:{ intros u Hin. apply String.eqb_neq. now apply Hmail. }
  rewrite register_try_refused.
  destruct (in_memory_fallback E); cbv zeta.
  - destruct Hid as [Hid|Hid]; [discriminate|].
    rewrite filter_all_false.
    2:{ intros u Hin. apply String.eqb_neq. now apply Hid. }
    simpl. now rewrite restore_same.
  - simpl. now rewrite restore_same.
Qed.

(** Dana's registration as a driver on the sample store, with the
    wrapper that simulates results. *)
Lemma registration_is_refused_witness :
  register (env_configured true) sample_libs
    (body_new_driver "dana@x.org" "LIC-9") "u-new" "hash" 77 sample_db
  = (AppError "Registration failed" 500, sample_db).
Proof.
  refine (registration_is_refused (env_configured true) sample_libs
            (body_new_driver "dana@x.org" "LIC-9") _ "u-new" "hash" 77
            sample_db eq_refl _ (or_intror _)).
  - intros u [<-|[<-|[<-|[<-|[<-|[]]]]]]; discriminate.
  - intros u [<-|[<-|[<-|[<-|[<-|[]]]]]]; discriminate.
Defined.

(** X26: on the tables of [initDatabase] no login is served: the [SELECT]
    names [users.password].  A body that passes the schema is answered
    with the database error (500) by the rethrowing [query] wrapper and
    with 401 "Invalid email or password" by the other, whatever the
    email, the password and the users table. *)
Theorem login_is_refused (E : Env) (L : Libs)
  (compare : string -> string -> bool) (b : login_body) (db : Db)
  (e pw : string) :
  loginSchema L b = Some (e, pw) ->
  login E L compare b db
  = (if in_memory_fallback E
     then AppError "Invalid email or password" 401
     else answered (undefined_column "password"))
  /\ statusCode_of (login E L compare b db)
     = Some (if in_memory_fallback E then 401 else 500).
Proof.
  intro Hschema. unfold login. rewrite Hschema.
  unfold query, pg_exec, select_user_with_password. simpl.
  now destruct (in_memory_fallback E).
Qed.

(** The patient of the sample store logging in with a password that
    [bcrypt.compare] accepts for the stored hash. *)
Lemma login_is_refused_witness :
  statusCode_of
    (login (env_configured false) sample_libs sample_compare
       {| login_email := Some "p1@x.org";
          login_password := Some "correct horse" |} sample_db)
  = Some 500.
Proof.
  exact (proj2 (login_is_refused (env_configured false) sample_libs
                  sample_compare
                  {| login_email := Some "p1@x.org";
                     login_password := Some "correct horse" |}
                  sample_db "p1@x.org" "correct horse" eq_refl)).
Defined.

(** ** Authentication middleware *)

Lemma split_on_space_word (s : string) :
  no_space s -> split_on_space s = [s].
Proof.
  induction s as [|c s IH]; intro H; [reflexivity|].
  simpl. assert (Hc : Ascii.eqb c " "%char = false).
  { apply Ascii.eqb_neq. apply H. now left. }
  rewrite Hc, IH; [reflexivity|]. intros x Hx. apply H. now right.
Qed.

Lemma split_on_space_first (scheme rest : string) :
  no_space scheme ->
  split_on_space (String.append scheme (String " "%char rest))
  = scheme :: split_on_space rest.
Proof.
  induction scheme as [|c s IH]; intro H; [reflexivity|].
  simpl. assert (Hc : Ascii.eqb c " "%char = false).
  { apply Ascii.eqb_neq. apply H. now left. }
  rewrite Hc, IH; [reflexivity|]. intros x Hx. apply H. now right.
Qed.

(** X28: the token is the second word of the header whatever the first word
    is: the scheme is not compared with "Bearer". *)
Theorem header_scheme_is_not_checked (scheme token : string) :
  no_space scheme -> no_space token -> token <> "" ->
  header_token (Some (String.append scheme (String " "%char token)))
  = Some token.
Proof.
  intros Hs Ht Hne. unfold header_token.
  assert (Hh : String.eqb (String.append scheme (String " "%char token)) "" = false).
  { destruct scheme; reflexivity. }
  rewrite Hh, (split_on_space_first scheme token Hs),
    (split_on_space_word token Ht).
  simpl. apply String.eqb_neq in Hne. now rewrite Hne.
Qed.

Lemma header_scheme_is_not_checked_witness :
  header_token (Some "Basic tok-admin") = Some "tok-admin".
Proof.
  apply (header_scheme_is_not_checked "Basic" "tok-admin").
  - intros c Hc. simpl in Hc.
    repeat (destruct Hc as [<-|Hc]; [discriminate|]). destruct Hc.
  - intros c Hc. simpl in Hc.
    repeat (destruct Hc as [<-|Hc]; [discriminate|]). destruct Hc.
  - discriminate.
Defined.

(** A request is authenticated exactly when the header carries a token,
    the token verifies and the user of its payload still exists; the
    identity then has the id and the role written in the token, not the
    role of the user row. *)
Theorem authenticateToken_accepts_iff (verify : string -> option token_payload)
  (authorization : option string) (db : Db) (who : identity) :
  authenticateToken verify authorization db = Ok who
  <-> exists token decoded,
        header_token authorization = Some token
        /\ verify token = Some decoded
        /\ (exists u, In u (users db) /\ u_id u = tp_userId decoded)
        /\ who = {| id := tp_userId decoded; user_role := tp_role decoded |}.
Proof.
  unfold authenticateToken. split.
  - destruct (header_token authorization) as [token|]; [|discriminate].
    destruct (verify token) as [decoded|] eqn:Ev; [|discriminate].
    destruct (filter (fun u => String.eqb (u_id u) (tp_userId decoded)) (users db))
      as [|x xs] eqn:E; [discriminate|].
    intro H. inversion H. exists token, decoded.
    repeat split; try assumption.
    assert (Hx : In x (users db)
                 /\ String.eqb (u_id x) (tp_userId decoded) = true).
    { apply (filter_In (fun u => String.eqb (u_id u) (tp_userId decoded))).
      rewrite E. now left. }
    destruct Hx as [Hin Hid]. apply String.eqb_eq in Hid. now exists x.
  - intros [token [decoded [-> [-> [[u [Hin Hid]] ->]]]]].
    assert (Hex : exists x xs,
               filter (fun u0 => String.eqb (u_id u0) (tp_userId decoded))
                 (users db) = x :: xs).
    { apply filter_cons_witness. exists u. split; [exact Hin|].
      now apply String.eqb_eq. }
    destruct Hex as [x [xs ->]]. reflexivity.
Qed.

(** ** Vehicles and profiles *)

(** X29: after an admin deletes a vehicle, no vehicle row has that id and no
    ride refers to it; no ride changes its id, requester, driver or
    status, and the other vehicles stay. *)
Theorem deleteVehicle_clears_references (user : identity) (vehicleId : Z)
  (db : Db) :
  is_ok (fst (deleteVehicle user vehicleId db)) = true ->
  let db' := snd (deleteVehicle user vehicleId db) in
  (forall v, In v (vehicles db') -> v_id v <> vehicleId)
  /\ (forall r, In r (rides db') -> r_vehicle_id r <> Some vehicleId)
  /\ map (fun r => (r_id r, r_user_id r, r_driver_id r, r_status r)) (rides db')
     = map (fun r => (r_id r, r_user_id r, r_driver_id r, r_status r)) (rides db)
  /\ (forall v, In v (vehicles db) -> v_id v <> vehicleId -> In v (vehicles db'))
  /\ (forall r, In r (rides db) -> r_vehicle_id r <> Some vehicleId ->
                In r (rides db')).
Proof.
  unfold deleteVehicle.
  destruct (requireRole [Admin] user); [|discriminate].
  destruct (filter (fun v => v_id v =? vehicleId) (vehicles db)) as [|v0 vs];
    [discriminate|].
  intros _. simpl. repeat split.
  - intros v Hv. apply filter_In in Hv. destruct Hv as [_ Hv].
    apply negb_true_iff in Hv. now apply Z.eqb_neq.
  - intros r Hr. apply in_map_iff in Hr. destruct Hr as [r0 [<- _]].
    unfold clear_vehicle, col_eqb.
    destruct (r_vehicle_id r0) as [c|] eqn:Ec; [|rewrite Ec; discriminate].
    destruct (c =? vehicleId) eqn:E; simpl; [discriminate|].
    rewrite Ec. apply Z.eqb_neq in E. congruence.
  - rewrite map_map. apply map_ext. intro r. unfold clear_vehicle.
    now destruct (col_eqb (r_vehicle_id r) vehicleId).
  - intros v Hv Hne. apply filter_In. split; [exact Hv|].
    apply negb_true_iff. now apply Z.eqb_neq.
  - intros r Hr Hne. apply in_map_iff. exists r. split; [|exact Hr].
    unfold clear_vehicle, col_eqb.
    destruct (r_vehicle_id r) as [c|]; [|reflexivity].
    destruct (c =? vehicleId) eqn:E; [|reflexivity].
    apply Z.eqb_eq in E. congruence.
Qed.

Lemma deleteVehicle_clears_references_witness :
  r_vehicle_id (clear_vehicle 7
                  (sample_ride 1 "u-patient1" (Some 1) (Some 7) Accepted 10))
  <> Some 7.
Proof.
  apply (proj1 (proj2 (deleteVehicle_clears_references admin 7 sample_db
                         eq_refl))).
  left. reflexivity.
Defined.

(** X30: a profile update changes nothing but the name and the phone of the
    caller's own row: ids, emails, passwords and roles stay, the other
    users stay, and so do the other tables.  A body whose name and phone
    are both missing or empty is refused with 400, and every refusal
    leaves the store as it was. *)
Theorem patchProfile_frame (fallback : bool) (user : identity)
  (name phone : option string) (db : Db) :
  let out := patchProfile fallback user name phone db in
  map (fun u => (u_id u, u_email u, u_password u, u_role u, u_created_at u))
    (users (snd out))
  = map (fun u => (u_id u, u_email u, u_password u, u_role u, u_created_at u))
      (users db)
  /\ (forall u, In u (users db) -> u_id u <> id user -> In u (users (snd out)))
  /\ drivers (snd out) = drivers db /\ rides (snd out) = rides db
  /\ payments (snd out) = payments db
  /\ (truthy_string name = None -> truthy_string phone = None ->
      out = (AppError "No fields to update" 400, db))
  /\ (is_ok (fst out) = false -> snd out = db).
Proof.
  cbv zeta. unfold patchProfile.
  assert (Hrun : forall n p,
             let out := query fallback [] (update_profile (id user) n p)
                          {| store := db; txn_state := NoTxn |} in
             map (fun u => (u_id u, u_email u, u_password u, u_role u,
                            u_created_at u)) (users (store (snd out)))
             = map (fun u => (u_id u, u_email u, u_password u, u_role u,
                              u_created_at u)) (users db)
             /\ (forall u, In u (users db) -> u_id u <> id user ->
                           In u (users (store (snd out))))
             /\ drivers (store (snd out)) = drivers db
             /\ rides (store (snd out)) = rides db
             /\ payments (store (snd out)) = payments db
             /\ (fst out = None -> store (snd out) = db)).
  { intros n p. cbv zeta. unfold query, pg_exec, update_profile. simpl.
    match goal with
    | |- context [if ?c then (None, db) else _] => destruct c
    end; simpl.
    - destruct fallback; simpl; now repeat split.
    - repeat split; try discriminate.
      + rewrite map_map. apply map_ext. intro u.
        now destruct (String.eqb (u_id u) (id user)).
      + intros u Hin Hne. apply in_map_iff. exists u. split; [|exact Hin].
        apply String.eqb_neq in Hne. now rewrite Hne. }
  destruct (truthy_string name) as [n|] eqn:En;
    destruct (truthy_string phone) as [p|] eqn:Ep;
    try (specialize (Hrun (truthy_string name) (truthy_string phone));
         rewrite En, Ep in Hrun; cbv zeta in Hrun;
         destruct (query fallback [] _ _) as [[l|] s]; simpl in *;
         destruct Hrun as [H1 [H2 [H3 [H4 [H5 H6]]]]];
         repeat split; try assumption; try discriminate;
         intros; auto).
Qed.
